(** * The log broadcaster of the Chainlink node

  A shallow embedding of [core/services/log/broadcaster.go] and a
  verification of statements of its specification.

  The Go code is a struct [broadcaster] whose methods mutate it and talk to
  collaborators (the logger, the ORM, the eth subscriber, the listeners).
  The embedding threads the struct through a small monad [M] whose results
  also carry the list of calls made to the collaborators.  Channels whose
  producers live outside the broadcaster are inputs; goroutine scheduling is
  an explicit schedule. *)

From Stdlib Require Import ZArith Lia.
From stdpp Require Import gmap strings list sorting.

Local Open Scope Z_scope.

(** ** Machine integers *)

(** Go's [int64] and [uint64] are carried by [Z]; conversions and arithmetic
  wrap around as the Go specification says. *)
Module Int.

Definition wrap64 (z : Z) : Z := (z + 2 ^ 63) `mod` 2 ^ 64 - 2 ^ 63.
Definition uwrap64 (z : Z) : Z := z `mod` 2 ^ 64.

(** [int64(u)] for [u : uint64] and [uint64(i)] for [i : int64]. *)
Definition int64 (u : Z) : Z := wrap64 u.
Definition uint64 (i : Z) : Z := uwrap64 i.

Definition sub64 (a b : Z) : Z := wrap64 (a - b).
Definition neg64 (a : Z) : Z := wrap64 (- a).

Definition is_int64 (z : Z) : Prop := - 2 ^ 63 <= z < 2 ^ 63.

End Int.

(** ** Types of the collaborating packages *)

Module common.
(** [common.Address] (20 bytes) and [common.Hash] (32 bytes), each as the
    number its bytes spell. *)
Definition Address := Z.
Definition Hash := Z.
End common.

Module types.
(** go-ethereum's [types.Log]. *)
Record Log := mkLog {
  Address : common.Address;
  Topics : list common.Hash;
  Data : list Z;
  BlockNumber : Z;   (* uint64 *)
  TxHash : common.Hash;
  TxIndex : Z;       (* uint *)
  BlockHash : common.Hash;
  Index : Z;         (* uint *)
  Removed : bool
}.

(** The zero value, which a receive from a closed channel yields. *)
Definition zeroLog : Log := mkLog 0 [] [] 0 0 0 0 0 false.

#[export] Instance Log_eq_dec : EqDecision Log.
Proof. solve_decision. Defined.
End types.

Module models.
(** [models.Head], as far as the broadcaster reads it. *)
Record Head := mkHead {
  Number : Z;        (* int64 *)
  Hash : common.Hash;
  ParentHash : common.Hash
}.

#[export] Instance Head_eq_dec : EqDecision Head.
Proof. solve_decision. Defined.
End models.

Module null.
(** Modelled from the spec: [core/null] is not among the sources; the
    spec has [backfill_block_number] an optional int64, and the broadcaster
    uses the value, its [Valid] flag, [NewInt64] and [SetValid]. *)
Record Int64 := mkInt64 { Int64_ : Z; Valid : bool }.

Definition NewInt64 (i : Z) (valid : bool) : Int64 := mkInt64 i valid.
Definition SetValid (_ : Int64) (i : Z) : Int64 := mkInt64 i true.
Definition invalidate (n : Int64) : Int64 := mkInt64 (Int64_ n) false.

(** The zero value of the struct. *)
Definition zeroInt64 : Int64 := mkInt64 0 false.
End null.

(** ** Channels *)

(** A channel is seen from its receiving end.  [None] is the nil channel, on
  which every operation blocks forever.  [Some s] yields the items
  [pending s] in order; after the last one it is closed when [closed s]
  holds, and otherwise it stays open with nothing to receive, so that a
  receiver blocks. *)
Record stream (A : Type) := mkStream {
  pending : list A;
  closed : bool
}.
Arguments mkStream {A}.
Arguments pending {A}.
Arguments closed {A}.

Definition chan (A : Type) : Type := option (stream A).

(** A channel that is nil or closed after its items: a [range] over it
    ends. *)
Definition ends {A} (ch : chan A) : bool :=
  match ch with
  | Some s => closed s
  | None => true
  end.

(** The items a channel yields; none for the nil channel. *)
Definition yields {A} (ch : chan A) : list A :=
  match ch with
  | Some s => pending s
  | None => []
  end.

(** ** The mailbox *)

Module utils.
(** Modelled from the spec: [utils.Mailbox] is not among the sources.
    Section 4.1: a buffer with drop-oldest on overflow; [Deliver] always
    keeps the newest item and tells whether it dropped one; with capacity 1
    it replaces any pending item; [Retrieve] hands out the pending items in
    arrival order, [RetrieveLatestAndClear] hands out the newest item and
    forgets the others.  Of the mailbox of capacity 0 the spec says that it
    keeps the newest item and that its consumer drains it of all its items;
    it does not say whether it ever drops one, and here it does not. *)
Record Mailbox (A : Type) := mkMailbox {
  capacity : nat;
  queue : list A     (* oldest first *)
}.
Arguments mkMailbox {A}.
Arguments capacity {A}.
Arguments queue {A}.

Definition NewMailbox {A} (capacity : nat) : Mailbox A := mkMailbox capacity [].

Definition Deliver {A} (m : Mailbox A) (x : A) : Mailbox A * bool :=
  let q := queue m ++ [x] in
  if (0 <? capacity m)%nat && (capacity m <? length q)%nat
  then (mkMailbox (capacity m) (tail q), true)
  else (mkMailbox (capacity m) q, false).

Definition Retrieve {A} (m : Mailbox A) : option A * Mailbox A :=
  match queue m with
  | [] => (None, m)
  | x :: q => (Some x, mkMailbox (capacity m) q)
  end.

Definition RetrieveLatestAndClear {A} (m : Mailbox A) : option A * Mailbox A :=
  match last (queue m) with
  | None => (None, m)
  | Some x => (Some x, mkMailbox (capacity m) [])
  end.
End utils.

(** ** The log pool *)

Module LogPool.
Import types.

(** Modelled from the spec: [log_pool.go] is not among the sources.
    Sections 3 and 4.2: a log is identified by [(block_hash, log_index)],
    an insertion for the same identity overwrites, [removeLog] erases the
    entry of that identity; [getLogsToSend] returns the logs at or below
    the given block, ascending, with the lowest block returned;
    [getAndDeleteAll] returns everything with the lowest and highest block
    and empties the pool; [deleteOlderLogs] evicts what is strictly below
    the threshold.  The spec leaves the block bounds of an empty result
    open; they are 0 here and the broadcaster does not read them then. *)
Abbreviation pool := (gmap (Z * Z) Log).

Definition key (l : Log) : Z * Z := (BlockHash l, Index l).

Definition newLogPool : pool := ∅.

Definition addLog (p : pool) (l : Log) : pool := <[key l := l]> p.

Definition removeLog (p : pool) (l : Log) : pool := delete (key l) p.

(** Ascending by [(block_number, tx_index, log_index)]. *)
Definition before (a b : Log) : Prop :=
  BlockNumber a < BlockNumber b
  ∨ (BlockNumber a = BlockNumber b
     ∧ (TxIndex a < TxIndex b ∨ (TxIndex a = TxIndex b ∧ Index a <= Index b))).

#[export] Instance before_dec a b : Decision (before a b).
Proof. unfold before. apply _. Defined.

Definition ascending (p : pool) : list Log :=
  merge_sort before (snd <$> map_to_list p).

Definition lowestBlock (logs : list Log) : Z :=
  match logs with
  | [] => 0
  | l :: ls => foldr (λ x acc, Z.min (BlockNumber x) acc) (BlockNumber l) ls
  end.

Definition highestBlock (logs : list Log) : Z :=
  match logs with
  | [] => 0
  | l :: ls => foldr (λ x acc, Z.max (BlockNumber x) acc) (BlockNumber l) ls
  end.

Definition getAndDeleteAll (p : pool) : (list Log * Z * Z) * pool :=
  let logs := ascending p in
  ((logs, lowestBlock logs, highestBlock logs), ∅).

Definition getLogsToSend (p : pool) (latestBlockNum : Z) : list Log * Z :=
  let logs := ascending (filter (λ kv, BlockNumber kv.2 <= latestBlockNum) p) in
  (logs, lowestBlock logs).

Definition deleteOlderLogs (p : pool) (keptDepth : Z) : pool :=
  filter (λ kv, keptDepth <= BlockNumber kv.2) p.
End LogPool.

(** ** Listeners and registrations *)

(** A [Listener] is an interface of the package; the broadcaster tells
    listeners apart and the persistence layer names them by [JobID]. *)
Definition Listener := string.

(** [ListenerOpts].  [ParseLog], the decoder handed on to the listener, is
    not read by the broadcaster and is left out. *)
Record ListenerOpts := mkListenerOpts {
  Contract : common.Address;
  LogsWithTopics : gmap Z (list (list Z));   (* map[common.Hash][][]Topic *)
  NumConfirmations : Z                       (* uint64 *)
}.

Record registration := mkRegistration {
  listener : Listener;
  opts : ListenerOpts
}.

#[export] Instance ListenerOpts_eq_dec : EqDecision ListenerOpts.
Proof. solve_decision. Defined.

#[export] Instance registration_eq_dec : EqDecision registration.
Proof. solve_decision. Defined.

Module Registrations.
(** Modelled from the spec: [registrations.go] is not among the sources.
    Sections 3 and 4.3: the active listeners with the highest number of
    confirmations any of them asks for (0 if none); [addressesAndTopics] is
    the union of their contracts and of their topic hashes; adding asks for a
    resubscribe when it brings an address or a topic not yet covered or
    raises the highest number of confirmations; removing asks for one when
    an address and topic pair loses its only listener. *)
Record regs := mkRegs {
  subscribers : list registration;
  highestNumConfirmations : Z   (* uint64 *)
}.

Definition newRegistrations : regs := mkRegs [] 0.

Definition topicsOf (reg : registration) : list common.Hash :=
  (map_to_list (LogsWithTopics (opts reg))).*1.

Definition addressesAndTopics (r : regs)
  : list common.Address * list common.Hash :=
  (remove_dups ((λ reg, Contract (opts reg)) <$> subscribers r),
   remove_dups (subscribers r ≫= topicsOf)).

Definition isAddressRegistered (r : regs) (address : common.Address) : bool :=
  bool_decide (address ∈ (addressesAndTopics r).1).

Definition covered (subs : list registration)
  (address : common.Address) (topic : common.Hash) : bool :=
  existsb (λ reg, bool_decide (Contract (opts reg) = address)
                  && bool_decide (topic ∈ topicsOf reg)) subs.

Definition highestOf (subs : list registration) : Z :=
  foldr (λ reg acc, Z.max (NumConfirmations (opts reg)) acc) 0 subs.

Definition addSubscriber (r : regs) (reg : registration) : regs * bool :=
  let '(addresses, topics) := addressesAndTopics r in
  let newAddress := negb (bool_decide (Contract (opts reg) ∈ addresses)) in
  let newTopic := existsb (λ t, negb (bool_decide (t ∈ topics))) (topicsOf reg) in
  let higher := highestNumConfirmations r <? NumConfirmations (opts reg) in
  (mkRegs (subscribers r ++ [reg])
          (Z.max (highestNumConfirmations r) (NumConfirmations (opts reg))),
   newAddress || newTopic || higher).

Fixpoint removeFirst (reg : registration) (subs : list registration)
  : list registration :=
  match subs with
  | [] => []
  | s :: rest => if decide (s = reg) then rest else s :: removeFirst reg rest
  end.

Definition removeSubscriber (r : regs) (reg : registration) : regs * bool :=
  let rest := removeFirst reg (subscribers r) in
  let uncovered :=
    existsb (λ t, covered (subscribers r) (Contract (opts reg)) t
                  && negb (covered rest (Contract (opts reg)) t))
            (topicsOf reg) in
  (mkRegs rest (highestOf rest), uncovered).
End Registrations.

(** ** Collaborators *)

(** Modelled from the spec: the row type of [FindConsumedLogs] is not among
    the sources; section 3 gives it as [(block_hash, log_index, job_id)]. *)
Record LogBroadcast := mkLogBroadcast {
  lbBlockHash : common.Hash;
  lbLogIndex : Z;
  lbJobID : string
}.

Definition error := string.

(** The [ORM] interface, as far as [broadcaster.go] calls it. *)
Record ORM := mkORM {
  FindConsumedLogs : Z → Z → list LogBroadcast + error
}.

(** The [Config] interface. *)
Record Config := mkConfig {
  BlockBackfillDepth : Z;        (* uint64 *)
  BlockBackfillSkip : bool;
  EthFinalityDepth : Z;          (* uint *)
  EthLogBackfillBatchSize : Z    (* uint32 *)
}.

Inductive level := Trace | Debug | Info | Warn | Error | Fatal.

(** What the broadcaster does to its collaborators: a line handed to the
    logger, a query of the ORM, a dispatch through
    [registrations.sendLogs], a request to the eth subscriber, an
    [Unsubscribe] of a managed subscription. *)
Inductive call :=
| Logged (lvl : level) (msg : string)
| FindConsumedLogsCalled (fromBlock toBlock : Z)
| SendLogsCalled (logs : list types.Log) (latestHead : models.Head)
                 (broadcasts : list LogBroadcast)
| CreateSubscriptionCalled (addresses : list common.Address)
                           (topics : list common.Hash)
| BackfillLogsCalled (fromBlockOverride : null.Int64)
                     (addresses : list common.Address)
                     (topics : list common.Hash)
| UnsubscribeCalled.

(** ** Values of dynamic type *)

(** A mailbox holds [interface{}] values: a head, a registration, or a value
    of some other type, known by the name [%T] prints. *)
Inductive any :=
| HeadItem (head : models.Head)
| RegistrationItem (reg : registration)
| OtherItem (typeName : string).

Definition typeName (x : any) : string :=
  match x with
  | HeadItem _ => "models.Head"
  | RegistrationItem _ => "log.registration"
  | OtherItem n => n
  end.

(** A buffered Go channel with the sends and receives of a [select] that
    does not wait. *)
Record bchan (A : Type) := mkBchan {
  bcap : nat;
  buf : list A     (* next to be received first *)
}.
Arguments mkBchan {A}.
Arguments bcap {A}.
Arguments buf {A}.

(** [select { case c <- x: default: }] *)
Definition trySend {A} (c : bchan A) (x : A) : bchan A :=
  if (length (buf c) <? bcap c)%nat then mkBchan (bcap c) (buf c ++ [x]) else c.

(** [case x := <-c] when it is ready. *)
Definition recv {A} (c : bchan A) : option (A * bchan A) :=
  match buf c with
  | [] => None
  | x :: rest => Some (x, mkBchan (bcap c) rest)
  end.

(** ** The broadcaster *)

(** The struct [broadcaster].  [connected] is the atomic flag,
    [trackedAddressesCount] and [lastSeenHeadNumber] are the atomic
    counters, [replayChannel] is [make(chan int64, 1)] and a nil
    [highestSavedHead] is [None].  The eth subscriber, whose answers are
    inputs of the resubscribe loop, the dependent awaiter, the stop channel,
    whose signal is a branch of the [select]s, and the wait group are left
    out. *)
Record broadcaster := mkBroadcaster {
  orm : ORM;
  config : Config;
  connected : bool;
  backfillBlockNumber : null.Int64;
  registrations : Registrations.regs;
  logPool : LogPool.pool;
  addSubscriber : utils.Mailbox any;
  rmSubscriber : utils.Mailbox any;
  newHeads : utils.Mailbox any;
  trackedAddressesCount : Z;     (* uint32 *)
  replayChannel : bchan Z;
  highestSavedHead : option models.Head;
  lastSeenHeadNumber : Z         (* int64 *)
}.

Definition NewBroadcaster (orm : ORM) (config : Config)
  (highestSavedHead : option models.Head) : broadcaster :=
  {| orm := orm;
     config := config;
     connected := false;
     backfillBlockNumber := null.zeroInt64;
     registrations := Registrations.newRegistrations;
     logPool := LogPool.newLogPool;
     addSubscriber := utils.NewMailbox 0;
     rmSubscriber := utils.NewMailbox 0;
     newHeads := utils.NewMailbox 1;
     trackedAddressesCount := 0;
     replayChannel := mkBchan 1 [];
     highestSavedHead := highestSavedHead;
     lastSeenHeadNumber := 0 |}.

Definition set_connected (v : bool) (b : broadcaster) : broadcaster :=
  mkBroadcaster (orm b) (config b) v (backfillBlockNumber b) (registrations b)
    (logPool b) (addSubscriber b) (rmSubscriber b) (newHeads b)
    (trackedAddressesCount b) (replayChannel b) (highestSavedHead b)
    (lastSeenHeadNumber b).

Definition set_backfillBlockNumber (v : null.Int64) (b : broadcaster) : broadcaster :=
  mkBroadcaster (orm b) (config b) (connected b) v (registrations b)
    (logPool b) (addSubscriber b) (rmSubscriber b) (newHeads b)
    (trackedAddressesCount b) (replayChannel b) (highestSavedHead b)
    (lastSeenHeadNumber b).

Definition set_registrations (v : Registrations.regs) (b : broadcaster) : broadcaster :=
  mkBroadcaster (orm b) (config b) (connected b) (backfillBlockNumber b) v
    (logPool b) (addSubscriber b) (rmSubscriber b) (newHeads b)
    (trackedAddressesCount b) (replayChannel b) (highestSavedHead b)
    (lastSeenHeadNumber b).

Definition set_logPool (v : LogPool.pool) (b : broadcaster) : broadcaster :=
  mkBroadcaster (orm b) (config b) (connected b) (backfillBlockNumber b)
    (registrations b) v (addSubscriber b) (rmSubscriber b) (newHeads b)
    (trackedAddressesCount b) (replayChannel b) (highestSavedHead b)
    (lastSeenHeadNumber b).

Definition set_addSubscriber (v : utils.Mailbox any) (b : broadcaster) : broadcaster :=
  mkBroadcaster (orm b) (config b) (connected b) (backfillBlockNumber b)
    (registrations b) (logPool b) v (rmSubscriber b) (newHeads b)
    (trackedAddressesCount b) (replayChannel b) (highestSavedHead b)
    (lastSeenHeadNumber b).

Definition set_rmSubscriber (v : utils.Mailbox any) (b : broadcaster) : broadcaster :=
  mkBroadcaster (orm b) (config b) (connected b) (backfillBlockNumber b)
    (registrations b) (logPool b) (addSubscriber b) v (newHeads b)
    (trackedAddressesCount b) (replayChannel b) (highestSavedHead b)
    (lastSeenHeadNumber b).

Definition set_newHeads (v : utils.Mailbox any) (b : broadcaster) : broadcaster :=
  mkBroadcaster (orm b) (config b) (connected b) (backfillBlockNumber b)
    (registrations b) (logPool b) (addSubscriber b) (rmSubscriber b) v
    (trackedAddressesCount b) (replayChannel b) (highestSavedHead b)
    (lastSeenHeadNumber b).

Definition set_trackedAddressesCount (v : Z) (b : broadcaster) : broadcaster :=
  mkBroadcaster (orm b) (config b) (connected b) (backfillBlockNumber b)
    (registrations b) (logPool b) (addSubscriber b) (rmSubscriber b) (newHeads b)
    v (replayChannel b) (highestSavedHead b) (lastSeenHeadNumber b).

Definition set_replayChannel (v : bchan Z) (b : broadcaster) : broadcaster :=
  mkBroadcaster (orm b) (config b) (connected b) (backfillBlockNumber b)
    (registrations b) (logPool b) (addSubscriber b) (rmSubscriber b) (newHeads b)
    (trackedAddressesCount b) v (highestSavedHead b) (lastSeenHeadNumber b).

Definition set_highestSavedHead (v : option models.Head) (b : broadcaster) : broadcaster :=
  mkBroadcaster (orm b) (config b) (connected b) (backfillBlockNumber b)
    (registrations b) (logPool b) (addSubscriber b) (rmSubscriber b) (newHeads b)
    (trackedAddressesCount b) (replayChannel b) v (lastSeenHeadNumber b).

Definition set_lastSeenHeadNumber (v : Z) (b : broadcaster) : broadcaster :=
  mkBroadcaster (orm b) (config b) (connected b) (backfillBlockNumber b)
    (registrations b) (logPool b) (addSubscriber b) (rmSubscriber b) (newHeads b)
    (trackedAddressesCount b) (replayChannel b) (highestSavedHead b) v.

(** ** The monad of the methods *)

(** A method run on a broadcaster returns with a value, the broadcaster as it
    left it and the calls it made ([Done]); or ends the process through
    [logger.Fatal], with the broadcaster as it was then ([Exited]); or has no
    result ([Stuck]: it waits for ever, or the fuel of a loop ran out). *)
Inductive res (A : Type) :=
| Done (a : A) (b : broadcaster) (calls : list call)
| Exited (b : broadcaster) (calls : list call)
| Stuck.
Arguments Done {A}.
Arguments Exited {A}.
Arguments Stuck {A}.

Definition M (A : Type) : Type := broadcaster → res A.

Definition ret {A} (a : A) : M A := λ b, Done a b [].

Definition bind {A B} (m : M A) (k : A → M B) : M B :=
  λ b, match m b with
       | Done a b1 c1 =>
           match k a b1 with
           | Done x b2 c2 => Done x b2 (c1 ++ c2)
           | Exited b2 c2 => Exited b2 (c1 ++ c2)
           | Stuck => Stuck
           end
       | Exited b1 c1 => Exited b1 c1
       | Stuck => Stuck
       end.

Notation "'let*' x ':=' m 'in' k" := (bind m (λ x, k))
  (at level 10, x pattern, m at level 100, k at level 200).
Notation "m ';;' k" := (bind m (λ _, k))
  (at level 100, k at level 200, right associativity).

Definition get : M broadcaster := λ b, Done b b [].
Definition modify (f : broadcaster → broadcaster) : M unit := λ b, Done tt (f b) [].
Definition emit (c : call) : M unit := λ b, Done tt b [c].
Definition stuck {A} : M A := λ _, Stuck.

Definition logf (lvl : level) (msg : string) : M unit := emit (Logged lvl msg).

(** Modelled from the spec: the [logger] package is not among the sources;
    section 7 has the misuse it reports through [Fatal] fatal to the caller:
    the line is written and the process ends. *)
Definition logFatal {A} (msg : string) : M A := λ b, Exited b [Logged Fatal msg].

(** ** The methods of [broadcaster.go] *)

Import types models.

Definition ReplayFromBlock (number : Z) : M unit :=
  logf Info "LogBroadcaster: Replay requested from block number: %v";;
  modify (λ b, set_replayChannel (trySend (replayChannel b) number) b).

(** [Register] returns a closure over [reg]; it is returned here as [reg],
    and [unsubscribe reg] is the closure's body. *)
Definition Register (listener : Listener) (opts : ListenerOpts) : M registration :=
  (if (size (LogsWithTopics opts) =? 0)%nat
   then logFatal "LogBroadcaster: Must supply at least 1 LogsWithTopics element to Register"
   else ret tt);;
  let reg := mkRegistration listener opts in
  let* b := get in
  let '(mailbox, wasOverCapacity) := utils.Deliver (addSubscriber b) (RegistrationItem reg) in
  modify (set_addSubscriber mailbox);;
  (if wasOverCapacity
   then logf Error "LogBroadcaster: Subscription mailbox is over capacity - dropped the oldest unprocessed subscription"
   else ret tt);;
  ret reg.

Definition unsubscribe (reg : registration) : M unit :=
  let* b := get in
  let '(mailbox, wasOverCapacity) := utils.Deliver (rmSubscriber b) (RegistrationItem reg) in
  modify (set_rmSubscriber mailbox);;
  if wasOverCapacity
  then logf Error "LogBroadcaster: Subscription removal mailbox is over capacity - dropped the oldest unprocessed removal"
  else ret tt.

Definition Connect (head : option Head) : M (option error) := ret None.

Definition OnNewLongestChain (head : Head) : M unit :=
  let* b := get in
  let '(mailbox, wasOverCapacity) := utils.Deliver (newHeads b) (HeadItem head) in
  modify (set_newHeads mailbox);;
  if wasOverCapacity
  then logf Trace "LogBroadcaster: Dropped the older head in the mailbox, while inserting latest (which is fine)"
  else ret tt.

Definition IsConnected : M bool :=
  let* b := get in ret (connected b).

Definition maybeWarnOnLargeBlockNumberDifference (logBlockNumber : Z) : M unit :=
  let* b := get in
  let lastSeenHeadNumber := lastSeenHeadNumber b in
  let diff := Int.sub64 logBlockNumber lastSeenHeadNumber in
  let diff := if diff <? 0 then Int.neg64 diff else diff in
  if (0 <? lastSeenHeadNumber) && (1000 <? diff)
  then logf Warn "LogBroadcaster: Detected a large block number difference between a log and recently seen head. This may indicate a problem with data received from the chain or major network delays."
  else ret tt.

Definition onNewLog (log : Log) : M unit :=
  maybeWarnOnLargeBlockNumberDifference (Int.int64 (BlockNumber log));;
  let* b := get in
  if Removed log then
    modify (set_logPool (LogPool.removeLog (logPool b) log))
  else if negb (Registrations.isAddressRegistered (registrations b) (Address log)) then
    ret tt
  else
    modify (set_logPool (LogPool.addLog (logPool b) log)).

(** The first loop of [onNewHeads].  A round takes the newest item and
    empties the mailbox, and the loop ends at the empty mailbox: [fuel]
    bounds the rounds, and two are enough ([retrieveLatestHead_run]). *)
Fixpoint retrieveLatestHead (fuel : nat) (latestHead : option Head) : M (option Head) :=
  match fuel with
  | O => stuck
  | S fuel =>
      let* b := get in
      let '(item, mailbox) := utils.RetrieveLatestAndClear (newHeads b) in
      modify (set_newHeads mailbox);;
      match item with
      | None => ret latestHead
      | Some (HeadItem head) => retrieveLatestHead fuel (Some head)
      | Some x =>
          logf Error ("expected `models.Head`, got " +:+ typeName x);;
          retrieveLatestHead fuel latestHead
      end
  end.

(** [b.orm.FindConsumedLogs] followed by [b.registrations.sendLogs]; [false]
    when the query failed, where the Go code returns from [onNewHeads]. *)
Definition findAndSend (prefix : string) (logs : list Log) (fromBlock toBlock : Z)
  (latestHead : Head) : M bool :=
  let* b := get in
  emit (FindConsumedLogsCalled fromBlock toBlock);;
  match FindConsumedLogs (orm b) fromBlock toBlock with
  | inr err =>
      logf Error (prefix +:+ "Failed to query for log broadcasts, %v");;
      ret false
  | inl broadcasts =>
      emit (SendLogsCalled logs latestHead broadcasts);;
      ret true
  end.

(** The body of [if latestHead != nil] in [onNewHeads]. *)
Definition dispatch (latestHead : Head) : M unit :=
  logf Debug "LogBroadcaster: Received head";;
  modify (set_lastSeenHeadNumber (Number latestHead));;
  let* b := get in
  let highestNumConfirmations := Registrations.highestNumConfirmations (registrations b) in
  let keptLogsDepth := EthFinalityDepth (config b) in
  let keptLogsDepth :=
    if keptLogsDepth <? highestNumConfirmations then highestNumConfirmations else keptLogsDepth in
  let latestBlockNum := Number latestHead in
  let keptDepth := Int.sub64 latestBlockNum (Int.int64 keptLogsDepth) in
  let keptDepth := if keptDepth <? 0 then 0 else keptDepth in
  if highestNumConfirmations =? 0 then
    let '((logs, lowest, highest), emptied) := LogPool.getAndDeleteAll (logPool b) in
    modify (set_logPool emptied);;
    if (0 <? length logs)%nat then
      findAndSend "" logs lowest highest latestHead;; ret tt
    else ret tt
  else
    let '(logs, minBlockNum) := LogPool.getLogsToSend (logPool b) latestBlockNum in
    let* sent :=
      (if (0 <? length logs)%nat
       then findAndSend "LogBroadcaster: " logs minBlockNum latestBlockNum latestHead
       else ret true) in
    if sent
    then modify (λ b, set_logPool (LogPool.deleteOlderLogs (logPool b) (Int.uint64 keptDepth)) b)
    else ret tt.

Definition onNewHeads : M unit :=
  let* b := get in
  let* latestHead := retrieveLatestHead (S (length (utils.queue (newHeads b)))) None in
  match latestHead with
  | Some head => dispatch head
  | None => ret tt
  end.

(** The loop of [onAddSubscribers].  A round takes one item out of the
    mailbox and the loop ends at the empty mailbox: one round more than
    there are items is enough ([onAddSubscribers_loop_run]). *)
Fixpoint onAddSubscribers_loop (fuel : nat) (needsResubscribe : bool) : M bool :=
  match fuel with
  | O => stuck
  | S fuel =>
      let* b := get in
      let '(x, mailbox) := utils.Retrieve (addSubscriber b) in
      modify (set_addSubscriber mailbox);;
      match x with
      | None => ret needsResubscribe
      | Some (RegistrationItem reg) =>
          logf Debug "LogBroadcaster: Subscribing listener";;
          let '(r, needsResub) := Registrations.addSubscriber (registrations b) reg in
          modify (set_registrations r);;
          onAddSubscribers_loop fuel (if needsResub then true else needsResubscribe)
      | Some x =>
          logf Error ("expected `registration`, got " +:+ typeName x);;
          onAddSubscribers_loop fuel needsResubscribe
      end
  end.

Definition onAddSubscribers : M bool :=
  let* b := get in
  onAddSubscribers_loop (S (length (utils.queue (addSubscriber b)))) false.

(** The loop of [onRmSubscribers], which is as that of
    [onAddSubscribers]. *)
Fixpoint onRmSubscribers_loop (fuel : nat) (needsResubscribe : bool) : M bool :=
  match fuel with
  | O => stuck
  | S fuel =>
      let* b := get in
      let '(x, mailbox) := utils.Retrieve (rmSubscriber b) in
      modify (set_rmSubscriber mailbox);;
      match x with
      | None => ret needsResubscribe
      | Some (RegistrationItem reg) =>
          logf Debug "LogBroadcaster: Unsubscribing listener";;
          let '(r, needsResub) := Registrations.removeSubscriber (registrations b) reg in
          modify (set_registrations r);;
          onRmSubscribers_loop fuel (if needsResub then true else needsResubscribe)
      | Some x =>
          logf Error ("expected `registration`, got " +:+ typeName x);;
          onRmSubscribers_loop fuel needsResubscribe
      end
  end.

Definition onRmSubscribers : M bool :=
  let* b := get in
  onRmSubscribers_loop (S (length (utils.queue (rmSubscriber b)))) false.

(** *** [appendLogChannel] *)

(** How a [for rawLog := range ch] loop of the forwarding goroutine ends:
    the channel was closed and the range is over, with what remains of the
    stop oracle; or the goroutine returned on the stop signal; or the
    channel is open with nothing to receive and the goroutine stays blocked
    in the [range], where the stop signal is not looked at. *)
Inductive rangeEnd :=
| RangeOver (stopAfter : option nat)
| Returned
| Blocked.

(** One [for rawLog := range ch] loop of the forwarding goroutine over a
    channel that yields [ch] and is then closed or not.  Each round is a
    [select] between the send on the combined channel and the stop signal,
    made with an item in hand; [stopAfter] tells which branch it takes:
    [None] when the stop branch is never taken, [Some k] when it is taken
    after [k] more sends.  The result is what went through and how the loop
    ended. *)
Fixpoint forward (ch : list Log) (isClosed : bool) (stopAfter : option nat)
  : list Log * rangeEnd :=
  match ch with
  | [] => ([], if isClosed then RangeOver stopAfter else Blocked)
  | rawLog :: ch =>
      match stopAfter with
      | Some O => ([], Returned)
      | Some (S k) =>
          let '(sent, e) := forward ch isClosed (Some k) in (rawLog :: sent, e)
      | None =>
          let '(sent, e) := forward ch isClosed None in (rawLog :: sent, e)
      end
  end.

(** [if ch != nil { for rawLog := range ch { ... } }] *)
Definition forwardAll (ch : chan Log) (stopAfter : option nat)
  : list Log * rangeEnd :=
  match ch with
  | Some s => forward (pending s) (closed s) stopAfter
  | None => ([], RangeOver stopAfter)
  end.

(** The channel returned carries what went through.  It is closed when the
    goroutine ends, whichever way ([defer close(chCombined)]), and stays
    open while the goroutine is blocked. *)
Definition appendLogChannel (stopAfter : option nat) (ch1 ch2 : chan Log) : chan Log :=
  match ch1, ch2 with
  | None, None => None
  | _, _ =>
      let '(sent1, e1) := forwardAll ch1 stopAfter in
      match e1 with
      | RangeOver stopAfter =>
          let '(sent2, e2) := forwardAll ch2 stopAfter in
          Some (mkStream (sent1 ++ sent2)
                  match e2 with Blocked => false | _ => true end)
      | Returned => Some (mkStream sent1 true)
      | Blocked => Some (mkStream sent1 false)
      end
  end.

(** *** The event loop *)

(** The branch a [select] of [eventLoop] takes.  The raw logs come from
    [chRawLogs], the replay request from [b.replayChannel]; the error of
    [chErr], the notifications of the mailboxes, the tick and the stop signal
    come from outside. *)
Inductive selectCase :=
| CaseRawLog
| CaseNewHeads
| CaseErr (err : option error)
| CaseAddSubscriber
| CaseRmSubscriber
| CaseReplay
| CaseDebounce
| CaseStop.

(** The loop takes the branches of [schedule] in turn and is [Stuck] when
    the schedule ends before the loop returns, or names a receive that is
    not ready.  A receive from [chRawLogs] is ready when an item is there or
    the channel is closed, and a closed channel yields the zero value.  The
    receive from [chErr] yields the error the subscription sent, or nil
    when that channel is closed.  The channel [chRawLogs] belongs to the
    caller, who goes on receiving from it: what is left of it is returned
    with the two results of the Go function. *)
Fixpoint eventLoop_loop (schedule : list selectCase) (chRawLogs : chan Log)
  (needsResubscribe : bool) : M (bool * option error * chan Log) :=
  match schedule with
  | [] => stuck
  | c :: schedule =>
      match c with
      | CaseRawLog =>
          match chRawLogs with
          | None => stuck
          | Some s =>
              match pending s, closed s with
              | [], false => stuck
              | items, isClosed =>
                  let rawLog := default zeroLog (head items) in
                  logf Debug "LogBroadcaster: Received a log";;
                  onNewLog rawLog;;
                  eventLoop_loop schedule (Some (mkStream (tail items) isClosed))
                    needsResubscribe
              end
          end
      | CaseNewHeads =>
          onNewHeads;;
          eventLoop_loop schedule chRawLogs needsResubscribe
      | CaseErr err => ret (true, err, chRawLogs)
      | CaseAddSubscriber =>
          let* r := onAddSubscribers in
          eventLoop_loop schedule chRawLogs (r || needsResubscribe)
      | CaseRmSubscriber =>
          let* r := onRmSubscribers in
          eventLoop_loop schedule chRawLogs (r || needsResubscribe)
      | CaseReplay =>
          let* b := get in
          match recv (replayChannel b) with
          | None => stuck
          | Some (blockNumber, ch) =>
              modify (set_replayChannel ch);;
              modify (λ b, set_backfillBlockNumber
                             (null.SetValid (backfillBlockNumber b) blockNumber) b);;
              logf Debug "LogBroadcaster: Returning from the event loop to replay logs from specific block number";;
              ret (true, None, chRawLogs)
          end
      | CaseDebounce =>
          if needsResubscribe then
            logf Debug "LogBroadcaster: Returning from the event loop to resubscribe";;
            ret (true, None, chRawLogs)
          else eventLoop_loop schedule chRawLogs needsResubscribe
      | CaseStop => ret (false, None, chRawLogs)
      end
  end.

Definition eventLoop (schedule : list selectCase) (chRawLogs : chan Log)
  : M (bool * option error * chan Log) :=
  logf Debug "LogBroadcaster: Starting the event loop";;
  eventLoop_loop schedule chRawLogs false.

(** *** The resubscribe loop *)

(** What one round of [startResubscribeLoop] gets from outside: the answers
    of the eth subscriber, the stop oracles of the two forwarding
    goroutines, and the schedule of the event loop. *)
Record cycle := mkCycle {
  createAbort : bool;
  liveLogs : chan Log;            (* newSubscription.Logs() *)
  backfillAbort : bool;
  backfilledLogs : chan Log;      (* chBackfilledLogs *)
  stopBackfilled : option nat;
  stopLive : option nat;
  schedule : list selectCase
}.

(** The two [if]s on [b.highestSavedHead]. *)
Definition seedBackfill : M unit :=
  let* b := get in
  (if BlockBackfillSkip (config b) && bool_decide (highestSavedHead b ≠ None) then
     logf Warn "LogBroadcaster: BlockBackfillSkip is set to true, preventing a deep backfill - some earlier chain events might be missed.";;
     modify (set_highestSavedHead None)
   else ret tt);;
  let* b := get in
  match highestSavedHead b with
  | Some head =>
      let from :=
        Int.sub64
          (Int.sub64 (Number head)
             (Int.int64 (Registrations.highestNumConfirmations (registrations b))))
          (Int.int64 (BlockBackfillDepth (config b))) in
      let from := if from <? 0 then 0 else from in
      modify (set_backfillBlockNumber (null.NewInt64 from true));;
      modify (set_highestSavedHead None)
  | None => ret tt
  end.

(** One round up to the call of [eventLoop]; [None] when the eth subscriber
    tells to abort and the goroutine returns. *)
Definition resubscribe (c : cycle) (chRawLogs : chan Log) : M (option (chan Log)) :=
  logf Debug "LogBroadcaster: Resubscribing and backfilling logs...";;
  let* b := get in
  let '(addresses, topics) := Registrations.addressesAndTopics (registrations b) in
  emit (CreateSubscriptionCalled addresses topics);;
  if createAbort c then ret None else
  seedBackfill;;
  let* b := get in
  (if null.Valid (backfillBlockNumber b)
   then logf Debug "LogBroadcaster: Using an override as a start of the backfill"
   else ret tt);;
  emit (BackfillLogsCalled (backfillBlockNumber b) addresses topics);;
  if backfillAbort c then ret None else
  modify (λ b, set_backfillBlockNumber (null.invalidate (backfillBlockNumber b)) b);;
  let chRawLogs := appendLogChannel (stopBackfilled c) chRawLogs (backfilledLogs c) in
  let chRawLogs := appendLogChannel (stopLive c) chRawLogs (liveLogs c) in
  emit UnsubscribeCalled;;
  modify (set_connected true);;
  modify (set_trackedAddressesCount (Z.of_nat (length addresses) `mod` 2 ^ 32));;
  ret (Some chRawLogs).

(** Every return runs the deferred [subscription.Unsubscribe()]. *)
Fixpoint startResubscribeLoop_loop (cycles : list cycle) (chRawLogs : chan Log) : M unit :=
  match cycles with
  | [] => stuck
  | c :: cycles =>
      let* r := resubscribe c chRawLogs in
      match r with
      | None => emit UnsubscribeCalled
      | Some chRawLogs =>
          let* r := eventLoop (schedule c) chRawLogs in
          let '(shouldResubscribe, err, chRawLogs) := r in
          match err with
          | Some _ =>
              logf Warn "LogBroadcaster: Error in the event loop - will reconnect";;
              modify (set_connected false);;
              startResubscribeLoop_loop cycles chRawLogs
          | None =>
              if negb shouldResubscribe then
                modify (set_connected false);;
                emit UnsubscribeCalled
              else startResubscribeLoop_loop cycles chRawLogs
          end
      end
  end.

Definition startResubscribeLoop (cycles : list cycle) : M unit :=
  startResubscribeLoop_loop cycles None.

(** *** Awaiting the initial subscribers *)

(** The branch a [select] of [awaitInitialSubscribers] takes. *)
Inductive awaitCase :=
| AwaitAddSubscriber
| AwaitRmSubscriber
| AwaitDependents
| AwaitStop.

(** [awaitInitialSubscribers]; [true] when it starts the goroutine of
    [startResubscribeLoop] before it returns.  As in the event loop, a
    schedule that ends before the loop returns leaves it [Stuck]. *)
Fixpoint awaitInitialSubscribers (schedule : list awaitCase) : M bool :=
  match schedule with
  | [] => stuck
  | c :: schedule =>
      match c with
      | AwaitAddSubscriber => onAddSubscribers;; awaitInitialSubscribers schedule
      | AwaitRmSubscriber => onRmSubscribers;; awaitInitialSubscribers schedule
      | AwaitDependents => ret true
      | AwaitStop => ret false
      end
  end.

(** The two getters. *)
Definition BackfillBlockNumber : M null.Int64 :=
  let* b := get in ret (backfillBlockNumber b).

Definition TrackedAddressesCount : M Z :=
  let* b := get in ret (trackedAddressesCount b).

(** * Verification *)

(** ** Concrete collaborators and broadcasters for the examples *)

Definition ormEmpty : ORM := mkORM (λ _ _, inl []).
Definition ormDown : ORM := mkORM (λ _ _, inr "connection refused").
Definition config0 : Config := mkConfig 5 false 50 100.

(** A broadcaster as [NewBroadcaster] makes it. *)
Definition fresh : broadcaster := NewBroadcaster ormEmpty config0 None.

(** Three listeners on contract 7 and topic 1, asking for 3, for 0 and for
    [2^64 - 1] confirmations, and one on contract 8. *)
Definition jobA : registration := mkRegistration "job-a" (mkListenerOpts 7 {[ 1 := [] ]} 3).
Definition jobB : registration := mkRegistration "job-b" (mkListenerOpts 8 {[ 2 := [] ]} 0).
Definition jobZero : registration := mkRegistration "job-0" (mkListenerOpts 7 {[ 1 := [] ]} 0).
Definition jobMax : registration :=
  mkRegistration "job-max" (mkListenerOpts 7 {[ 1 := [] ]} (2 ^ 64 - 1)).

Definition registered (reg : registration) : Registrations.regs :=
  (Registrations.addSubscriber Registrations.newRegistrations reg).1.

(** A registration, a string and another registration wait in the mailbox
    of the subscriptions. *)
Definition crowded : broadcaster :=
  set_addSubscriber
    (utils.mkMailbox 0 [RegistrationItem jobA; OtherItem "string"; RegistrationItem jobB])
    fresh.

(** A log of block 10 from contract 7 in the pool of a broadcaster with one
    listener and a finality depth of 50. *)
Definition log10 : Log := mkLog 7 [1] [] 10 99 0 1234 3 false.
Definition log11 : Log := mkLog 7 [1] [] 11 98 0 1235 0 false.
Definition log12 : Log := mkLog 7 [1] [] 12 97 0 1236 0 false.

Definition holding (orm : ORM) (reg : registration) : broadcaster :=
  set_registrations (registered reg)
    (set_logPool (LogPool.addLog ∅ log10) (NewBroadcaster orm config0 None)).

(** The removal of that log. *)
Definition removed10 : Log := mkLog 7 [1] [] 10 99 0 1234 3 true.

(** The restart of scenario S4: head 15, 3 confirmations, depth 5. *)
Definition restarted : broadcaster :=
  set_registrations (registered jobA)
    (NewBroadcaster ormEmpty config0 (Some (mkHead 15 1 0))).

(** Head 12 is waiting and the ORM is down; the listener asks for 3
    confirmations, or for none. *)
Definition waiting (reg : registration) : broadcaster :=
  set_newHeads (utils.mkMailbox 1 [HeadItem (mkHead 12 1 0)]) (holding ormDown reg).

(** ** Running the monad *)

Lemma bind_Done {A B} (m : M A) (k : A → M B) b a b1 c1 :
  m b = Done a b1 c1 →
  bind m k b =
    match k a b1 with
    | Done x b2 c2 => Done x b2 (c1 ++ c2)
    | Exited b2 c2 => Exited b2 (c1 ++ c2)
    | Stuck => Stuck
    end.
Proof. intros H. unfold bind. by rewrite H. Qed.

(** A result with calls made before it. *)
Definition after {A} (calls : list call) (r : res A) : res A :=
  match r with
  | Done x b c => Done x b (calls ++ c)
  | Exited b c => Exited b (calls ++ c)
  | Stuck => Stuck
  end.

Lemma bind_ret_l {A B} (a : A) (k : A → M B) b : bind (ret a) k b = k a b.
Proof. unfold bind, ret. by destruct (k a b). Qed.

Lemma bind_get {B} (k : broadcaster → M B) b : bind get k b = k b b.
Proof. unfold bind, get. by destruct (k b b). Qed.

Lemma bind_modify {B} f (k : unit → M B) b : bind (modify f) k b = k tt (f b).
Proof. unfold bind, modify. by destruct (k tt (f b)). Qed.

Lemma bind_emit {B} c (k : unit → M B) b :
  bind (emit c) k b =
    match k tt b with
    | Done x b2 c2 => Done x b2 (c :: c2)
    | Exited b2 c2 => Exited b2 (c :: c2)
    | Stuck => Stuck
    end.
Proof. reflexivity. Qed.

Lemma bind_logf {B} lvl msg (k : unit → M B) b :
  bind (logf lvl msg) k b =
    match k tt b with
    | Done x b2 c2 => Done x b2 (Logged lvl msg :: c2)
    | Exited b2 c2 => Exited b2 (Logged lvl msg :: c2)
    | Stuck => Stuck
    end.
Proof. reflexivity. Qed.

Ltac run :=
  repeat first
    [ rewrite bind_ret_l | rewrite bind_get | rewrite bind_modify
    | rewrite bind_emit | rewrite bind_logf ].

(** ** [Connect] *)

(** C10. For every head, [Connect] returns nil, makes no call to a
    collaborator and leaves the broadcaster, every field of it, as it
    was; whatever method runs after it runs as it would have without it. *)
Theorem Connect_is_noop (head : option Head) (b : broadcaster) :
  Connect head b = Done None b []
  ∧ ∀ (A : Type) (m : M A), (Connect head;; m) b = m b.
Proof.
  split; [reflexivity|].
  intros A m. unfold Connect. by rewrite bind_ret_l.
Qed.

(** ** [Register] *)

(** C8. [Register] with an empty [LogsWithTopics] logs the misuse through
    [logger.Fatal] and ends there: it does not return to the caller, and the
    broadcaster, its subscription mailbox included, is as it was, so no
    registration has been delivered. *)
Theorem Register_rejects_empty_topics
  (listener : Listener) (opts : ListenerOpts) (b : broadcaster) :
  size (LogsWithTopics opts) = 0%nat →
  Register listener opts b =
    Exited b [Logged Fatal "LogBroadcaster: Must supply at least 1 LogsWithTopics element to Register"].
Proof.
  intros Hempty. unfold Register. rewrite Hempty. reflexivity.
Qed.

Lemma Register_rejects_empty_topics_witness :
  size (LogsWithTopics (mkListenerOpts 7 ∅ 3)) = 0%nat
  ∧ Register "job-1" (mkListenerOpts 7 ∅ 3) fresh =
      Exited fresh
        [Logged Fatal "LogBroadcaster: Must supply at least 1 LogsWithTopics element to Register"].
Proof.
  split; [reflexivity|].
  apply (Register_rejects_empty_topics "job-1" (mkListenerOpts 7 ∅ 3) fresh).
  reflexivity.
Defined.

(** With a topic, [Register] does deliver the registration. *)
Lemma Register_delivers (listener : Listener) (opts : ListenerOpts) (b : broadcaster) :
  size (LogsWithTopics opts) ≠ 0%nat →
  ∃ b' calls,
    Register listener opts b = Done (mkRegistration listener opts) b' calls
    ∧ last (utils.queue (addSubscriber b')) = Some (RegistrationItem (mkRegistration listener opts)).
Proof.
  intros Hne. unfold Register.
  destruct (Nat.eqb_spec (size (LogsWithTopics opts)) 0); [done|].
  run. unfold utils.Deliver.
  destruct (_ && _) eqn:Hover; run; eexists _, _; (split; [reflexivity|]); simpl.
  - destruct (utils.queue (addSubscriber b)) as [|x q]; simpl.
    + apply andb_prop in Hover as [H1 H2].
      apply Nat.ltb_lt in H1, H2. simpl in H2. lia.
    + by rewrite last_snoc.
  - by rewrite last_snoc.
Qed.

(** ** [onNewLog] *)

Lemma maybeWarn_run (n : Z) (b : broadcaster) :
  ∃ calls, maybeWarnOnLargeBlockNumberDifference n b = Done tt b calls.
Proof.
  unfold maybeWarnOnLargeBlockNumberDifference. run.
  destruct (_ && _); eexists; reflexivity.
Qed.

(** The pool after [onNewLog]. *)
Definition poolAfterLog (log : Log) (b : broadcaster) : LogPool.pool :=
  if Removed log then LogPool.removeLog (logPool b) log
  else if Registrations.isAddressRegistered (registrations b) (Address log)
       then LogPool.addLog (logPool b) log
       else logPool b.

Lemma onNewLog_run (log : Log) (b : broadcaster) :
  ∃ calls, onNewLog log b = Done tt (set_logPool (poolAfterLog log b) b) calls.
Proof.
  unfold onNewLog, poolAfterLog.
  destruct (maybeWarn_run (Int.int64 (BlockNumber log)) b) as [calls Hw].
  rewrite (bind_Done _ _ _ _ _ _ Hw). run.
  destruct (Removed log); [|destruct (Registrations.isAddressRegistered _ _)];
    simpl; eexists; try reflexivity.
  by destruct b.
Qed.

(** C5. A raw log the event loop receives goes through [onNewLog], which
    returns and touches the pool only.  A removed log leaves no entry under
    its [(block_hash, log_index)] and is not stored; a log that is not
    removed is stored under its identity when its address is registered, and
    otherwise the pool is as it was.  No other entry changes. *)
Theorem onNewLog_pool (log : Log) (b : broadcaster) :
  (∀ schedule items isClosed needsResubscribe,
     eventLoop_loop (CaseRawLog :: schedule) (Some (mkStream (log :: items) isClosed))
       needsResubscribe b =
       (logf Debug "LogBroadcaster: Received a log";;
        onNewLog log;;
        eventLoop_loop schedule (Some (mkStream items isClosed)) needsResubscribe) b)
  ∧ ∃ b' calls,
      onNewLog log b = Done tt b' calls
      ∧ b' = set_logPool (logPool b') b
      ∧ (∀ k, k ≠ LogPool.key log → logPool b' !! k = logPool b !! k)
      ∧ match Removed log,
              Registrations.isAddressRegistered (registrations b) (Address log) with
        | true, _ => logPool b' !! LogPool.key log = None
        | false, true => logPool b' !! LogPool.key log = Some log
        | false, false => logPool b' = logPool b
        end.
Proof.
  split; [reflexivity|].
  destruct (onNewLog_run log b) as [calls Hrun].
  eexists _, calls. split; [exact Hrun|]. simpl.
  split; [reflexivity|]. unfold poolAfterLog, LogPool.removeLog, LogPool.addLog.
  split.
  - intros k Hk.
    destruct (Removed log); [|destruct (Registrations.isAddressRegistered _ _)].
    + by rewrite lookup_delete_ne.
    + by rewrite lookup_insert_ne.
    + done.
  - destruct (Removed log); [|destruct (Registrations.isAddressRegistered _ _)].
    + by rewrite lookup_delete_eq.
    + by rewrite lookup_insert_eq.
    + done.
Qed.

Lemma onNewLog_pool_witness :
  ∃ b' calls,
    onNewLog removed10 (holding ormEmpty jobA) = Done tt b' calls
    ∧ logPool (holding ormEmpty jobA) !! LogPool.key removed10 = Some log10
    ∧ logPool b' !! LogPool.key removed10 = None.
Proof.
  destruct (onNewLog_pool removed10 (holding ormEmpty jobA))
    as (_ & b' & calls & Hrun & _ & _ & Hgone).
  exists b', calls. split; [exact Hrun|]. split; [reflexivity|exact Hgone].
Defined.

(** ** [appendLogChannel] *)

(** The items the forwarding goroutine gets to receive: those of the first
    channel, and those of the second when the range over the first ends. *)
Definition received (ch1 ch2 : chan Log) : list Log :=
  yields ch1 ++ (if ends ch1 then yields ch2 else []).

(** Whether both ranges end when no stop branch is taken. *)
Definition drained (ch1 ch2 : chan Log) : bool := ends ch1 && ends ch2.

Lemma forward_never_stopped (ch : list Log) (isClosed : bool) :
  forward ch isClosed None = (ch, if isClosed then RangeOver None else Blocked).
Proof. induction ch as [|x ch IH]; simpl; [done|]. by rewrite IH. Qed.

Lemma forward_stopped (ch : list Log) (isClosed : bool) (k : nat) :
  forward ch isClosed (Some k) =
    (take k ch,
     if (k <? length ch)%nat then Returned
     else if isClosed then RangeOver (Some (k - length ch)%nat) else Blocked).
Proof.
  revert k. induction ch as [|x ch IH]; intros k; simpl.
  - rewrite take_nil. by rewrite Nat.sub_0_r.
  - destruct k as [|k]; simpl; [done|].
    rewrite IH. simpl. reflexivity.
Qed.

Lemma forwardAll_never_stopped (ch : chan Log) :
  forwardAll ch None = (yields ch, if ends ch then RangeOver None else Blocked).
Proof. destruct ch as [[a ca]|]; simpl; [apply forward_never_stopped|done]. Qed.

Lemma forwardAll_stopped (ch : chan Log) (k : nat) :
  forwardAll ch (Some k) =
    (take k (yields ch),
     if (k <? length (yields ch))%nat then Returned
     else if ends ch then RangeOver (Some (k - length (yields ch))%nat) else Blocked).
Proof.
  destruct ch as [[a ca]|]; simpl; [apply forward_stopped|].
  by rewrite take_nil, Nat.sub_0_r.
Qed.

(** Without a stop the channel returned carries all that is received. *)
Lemma appendLogChannel_all (ch1 ch2 : chan Log) :
  appendLogChannel None ch1 ch2 =
    match ch1, ch2 with
    | None, None => None
    | _, _ => Some (mkStream (received ch1 ch2) (drained ch1 ch2))
    end.
Proof.
  assert (Hrun :
    (let '(sent1, e1) := forwardAll ch1 None in
     match e1 with
     | RangeOver stopAfter =>
         let '(sent2, e2) := forwardAll ch2 stopAfter in
         Some (mkStream (sent1 ++ sent2) match e2 with Blocked => false | _ => true end)
     | Returned => Some (mkStream sent1 true)
     | Blocked => Some (mkStream sent1 false)
     end) = Some (mkStream (received ch1 ch2) (drained ch1 ch2))).
  { unfold received, drained. rewrite forwardAll_never_stopped.
    destruct (ends ch1); simpl.
    - rewrite forwardAll_never_stopped. by destruct (ends ch2).
    - by rewrite app_nil_r. }
  unfold appendLogChannel. destruct ch1, ch2; try exact Hrun. done.
Qed.

(** With a stop branch taken after [k] sends, if the goroutine gets that
    far. *)
Lemma appendLogChannel_stopped (k : nat) (ch1 ch2 : chan Log) :
  appendLogChannel (Some k) ch1 ch2 =
    match ch1, ch2 with
    | None, None => None
    | _, _ =>
        Some (if (k <? length (received ch1 ch2))%nat
              then mkStream (take k (received ch1 ch2)) true
              else mkStream (received ch1 ch2) (drained ch1 ch2))
    end.
Proof.
  assert (Hrun :
    (let '(sent1, e1) := forwardAll ch1 (Some k) in
     match e1 with
     | RangeOver stopAfter =>
         let '(sent2, e2) := forwardAll ch2 stopAfter in
         Some (mkStream (sent1 ++ sent2) match e2 with Blocked => false | _ => true end)
     | Returned => Some (mkStream sent1 true)
     | Blocked => Some (mkStream sent1 false)
     end) =
    Some (if (k <? length (received ch1 ch2))%nat
          then mkStream (take k (received ch1 ch2)) true
          else mkStream (received ch1 ch2) (drained ch1 ch2))).
  { unfold received, drained. rewrite forwardAll_stopped, length_app.
    destruct (Nat.ltb_spec k (length (yields ch1))) as [Hk|Hk].
    - rewrite (proj2 (Nat.ltb_lt _ _)) by lia.
      by rewrite take_app_le by lia.
    - rewrite take_ge by lia. destruct (ends ch1); simpl.
      + rewrite forwardAll_stopped.
        destruct (Nat.ltb_spec (k - length (yields ch1)) (length (yields ch2))) as [Hk2|Hk2].
        * rewrite (proj2 (Nat.ltb_lt _ _)) by lia.
          by rewrite take_app_ge by lia.
        * rewrite (proj2 (Nat.ltb_ge _ _)) by lia.
          rewrite take_ge by lia. by destruct (ends ch2).
      + rewrite Nat.add_0_r, (proj2 (Nat.ltb_ge _ _)) by lia.
        by rewrite app_nil_r. }
  unfold appendLogChannel. destruct ch1, ch2; try exact Hrun. done.
Qed.

(** C7. Two nil channels give the nil channel.  Otherwise the channel
    [appendLogChannel] returns carries the items of the first channel in
    their order until that channel is closed, then those of the second, a
    nil channel being skipped, and it is closed once both are drained and
    closed.  The stop signal is looked at only in the [select] made with an
    item in hand: when that [select] takes the stop branch the channel
    returned is closed at once, having carried the items forwarded until
    then, and that item and all later ones are dropped.  While the goroutine
    waits on a channel that is open and has no item it stays blocked,
    whatever the stop signal: the channel returned has carried the items
    received until then and is not closed, and the items of the second
    channel are not reached when it is the first that stays open. *)
Theorem appendLogChannel_forwards (stopAfter : option nat) (ch1 ch2 : chan Log) :
  appendLogChannel stopAfter ch1 ch2 =
    match ch1, ch2 with
    | None, None => None
    | _, _ =>
        Some match stopAfter with
             | Some k =>
                 if (k <? length (received ch1 ch2))%nat
                 then mkStream (take k (received ch1 ch2)) true
                 else mkStream (received ch1 ch2) (drained ch1 ch2)
             | None => mkStream (received ch1 ch2) (drained ch1 ch2)
             end
    end.
Proof.
  destruct stopAfter as [k|].
  - apply appendLogChannel_stopped.
  - apply appendLogChannel_all.
Qed.

(** The first channel yields one log and stays open, and the stop branch
    would be taken at the second [select]: the log goes through, no second
    [select] is made, the channel returned is not closed and the goroutine
    is blocked in its first [range].  The same happens when the stop branch
    would be taken at the first [select] and the channel has no item. *)
Lemma appendLogChannel_blocks_on_open_input :
  appendLogChannel (Some 1%nat) (Some (mkStream [log10] false)) (Some (mkStream [log11] true))
    = Some (mkStream [log10] false)
  ∧ forwardAll (Some (mkStream [log10] false)) (Some 1%nat) = ([log10], Blocked)
  ∧ appendLogChannel (Some 0%nat) (Some (mkStream [] false)) (Some (mkStream [log11] true))
    = Some (mkStream [] false).
Proof. repeat split. Qed.

(** ** The start of the backfill *)

(** The block [seedBackfill] computes from a saved head. *)
Definition backfillFrom (head : Head) (b : broadcaster) : Z :=
  let from :=
    Int.sub64
      (Int.sub64 (Number head)
         (Int.int64 (Registrations.highestNumConfirmations (registrations b))))
      (Int.int64 (BlockBackfillDepth (config b))) in
  if from <? 0 then 0 else from.

Definition skipWarning : call :=
  Logged Warn "LogBroadcaster: BlockBackfillSkip is set to true, preventing a deep backfill - some earlier chain events might be missed.".

Lemma seedBackfill_run (b : broadcaster) :
  seedBackfill b =
    match highestSavedHead b with
    | None => Done tt b []
    | Some head =>
        if BlockBackfillSkip (config b)
        then Done tt (set_highestSavedHead None b) [skipWarning]
        else Done tt
               (set_highestSavedHead None
                  (set_backfillBlockNumber (null.NewInt64 (backfillFrom head b) true) b))
               []
    end.
Proof.
  unfold seedBackfill. run.
  destruct (highestSavedHead b) as [head|] eqn:Hh.
  - destruct (BlockBackfillSkip (config b)) eqn:Hskip; simpl.
    + run. simpl. run. simpl. reflexivity.
    + run. rewrite Hh. run. reflexivity.
  - rewrite andb_false_r. run. rewrite Hh. by destruct b.
Qed.

(** The broadcaster as [seedBackfill] leaves it. *)
Definition seeded (b : broadcaster) : broadcaster :=
  match seedBackfill b with
  | Done _ b' _ => b'
  | _ => b
  end.

Lemma seeded_no_saved_head (b : broadcaster) : highestSavedHead (seeded b) = None.
Proof.
  unfold seeded. rewrite seedBackfill_run.
  destruct (highestSavedHead b) eqn:Hh; [|done].
  by destruct (BlockBackfillSkip (config b)).
Qed.

Lemma wrap64_id (z : Z) : Int.is_int64 z → Int.wrap64 z = z.
Proof.
  unfold Int.is_int64, Int.wrap64. intros Hz.
  rewrite Z.mod_small by lia. lia.
Qed.

Lemma backfillFrom_exact (head : Head) (b : broadcaster) :
  let hnc := Registrations.highestNumConfirmations (registrations b) in
  let depth := BlockBackfillDepth (config b) in
  0 <= hnc < 2 ^ 63 → 0 <= depth < 2 ^ 63 →
  - 2 ^ 63 <= Number head - hnc - depth → Number head < 2 ^ 63 →
  backfillFrom head b = Z.max 0 (Number head - hnc - depth).
Proof.
  intros hnc depth Hc Hd Hlo Hhi. unfold backfillFrom, Int.sub64, Int.int64.
  fold hnc depth.
  rewrite (wrap64_id hnc) by (unfold Int.is_int64; lia).
  rewrite (wrap64_id depth) by (unfold Int.is_int64; lia).
  rewrite (wrap64_id (Number head - hnc)) by (unfold Int.is_int64; lia).
  rewrite (wrap64_id (Number head - hnc - depth)) by (unfold Int.is_int64; lia).
  destruct (Z.ltb_spec (Number head - hnc - depth) 0); lia.
Qed.

(** One round of the resubscribe loop that is not aborted at the
    subscription asks the eth subscriber for a backfill from the block
    number [seedBackfill] left, and leaves no saved head. *)
Lemma resubscribe_backfills (c : cycle) (chRawLogs : chan Log) (b : broadcaster) :
  createAbort c = false →
  ∃ r b' calls,
    resubscribe c chRawLogs b = Done r b' calls
    ∧ BackfillLogsCalled (backfillBlockNumber (seeded b))
        (Registrations.addressesAndTopics (registrations b)).1
        (Registrations.addressesAndTopics (registrations b)).2 ∈ calls
    ∧ highestSavedHead b' = None.
Proof.
  intros Hcreate. unfold resubscribe. run.
  pose proof (seeded_no_saved_head b) as Hnone. unfold seeded in *.
  destruct (Registrations.addressesAndTopics (registrations b)) as [addresses topics].
  run. rewrite Hcreate.
  destruct (seedBackfill b) as [[] b1 c1| |] eqn:Hseed;
    try (rewrite seedBackfill_run in Hseed;
         destruct (highestSavedHead b); [destruct (BlockBackfillSkip (config b))|];
         discriminate).
  rewrite (bind_Done _ _ _ _ _ _ Hseed). run.
  destruct (null.Valid (backfillBlockNumber b1)), (backfillAbort c); run; simpl;
    eexists _, _, _; (split; [reflexivity|]); (split; [|done]);
    set_solver.
Qed.

(** Where nothing wraps.  With a saved head and [BlockBackfillSkip] not
    set, [seedBackfill] sets the backfill block number to
    [max 0 (head.Number - highestNumConfirmations - BlockBackfillDepth)] and
    clears the saved head, as long as the two depths are below [2^63] and the
    difference is an [int64], so that the conversions and the subtractions
    do not wrap.  With [BlockBackfillSkip] set, the saved head is dropped with
    a warning and the backfill block number is not written: the round asks
    for the backfill with the block number it had, which is no override when
    it was not valid. *)
Theorem backfill_start_on_restart
  (b : broadcaster) (head : Head) (c : cycle) (chRawLogs : chan Log) :
  highestSavedHead b = Some head →
  let hnc := Registrations.highestNumConfirmations (registrations b) in
  let depth := BlockBackfillDepth (config b) in
  (BlockBackfillSkip (config b) = false →
   0 <= hnc < 2 ^ 63 → 0 <= depth < 2 ^ 63 →
   - 2 ^ 63 <= Number head - hnc - depth → Number head < 2 ^ 63 →
   seedBackfill b =
     Done tt
       (set_highestSavedHead None
          (set_backfillBlockNumber
             (null.NewInt64 (Z.max 0 (Number head - hnc - depth)) true) b))
       [])
  ∧ (BlockBackfillSkip (config b) = true →
     seedBackfill b = Done tt (set_highestSavedHead None b) [skipWarning]
     ∧ (createAbort c = false →
        ∃ r b' calls,
          resubscribe c chRawLogs b = Done r b' calls
          ∧ BackfillLogsCalled (backfillBlockNumber b)
              (Registrations.addressesAndTopics (registrations b)).1
              (Registrations.addressesAndTopics (registrations b)).2 ∈ calls
          ∧ highestSavedHead b' = None)).
Proof.
  intros Hhead hnc depth. split.
  - intros Hskip Hc Hd Hlo Hhi.
    rewrite seedBackfill_run, Hhead, Hskip.
    by rewrite backfillFrom_exact.
  - intros Hskip.
    assert (Hseed : seedBackfill b = Done tt (set_highestSavedHead None b) [skipWarning])
      by (by rewrite seedBackfill_run, Hhead, Hskip).
    split; [exact Hseed|].
    intros Hcreate.
    destruct (resubscribe_backfills c chRawLogs b Hcreate) as (r & b' & calls & Hrun & Hin & Hnone).
    unfold seeded in Hin. rewrite Hseed in Hin.
    by eexists _, _, _.
Qed.

Lemma backfill_start_on_restart_witness :
  highestSavedHead restarted = Some (mkHead 15 1 0)
  ∧ seedBackfill restarted =
      Done tt
        (set_highestSavedHead None
           (set_backfillBlockNumber (null.NewInt64 7 true) restarted))
        [].
Proof.
  split; [reflexivity|].
  apply (backfill_start_on_restart restarted (mkHead 15 1 0)
           (mkCycle false None false None None None []) None);
    [reflexivity|reflexivity|simpl; lia|simpl; lia|simpl; lia|simpl; lia].
Defined.

(** C3. The code converts the two depths with [int64(...)] and subtracts
    in [int64]; the comment above the computation wants the backfill to
    start at an earlier block than the saved head, and the [if from < 0]
    that follows clamps to 0.  A [BlockBackfillDepth] of [2^64 - 1] is [-1]
    as an [int64]: from the saved head 100, with [BlockBackfillSkip] not
    set, the backfill block number is set to 101, a block after the saved
    head, and not to [max 0 (100 - 0 - (2^64 - 1)) = 0].  The saved head is
    cleared. *)
Theorem backfill_start_wraps :
  let b := NewBroadcaster ormEmpty (mkConfig (2 ^ 64 - 1) false 50 100)
             (Some (mkHead 100 1 0)) in
  seedBackfill b =
    Done tt
      (set_highestSavedHead None
         (set_backfillBlockNumber (null.NewInt64 101 true) b)) []
  ∧ Z.max 0 (100 - Registrations.highestNumConfirmations (registrations b)
                 - BlockBackfillDepth (config b)) = 0.
Proof. split; reflexivity. Qed.

(** ** The dispatch on a new head *)

Definition receivedLine : call := Logged Debug "LogBroadcaster: Received head".

Definition failedLine (prefix : string) : call :=
  Logged Error (prefix +:+ "Failed to query for log broadcasts, %v").

(** The calls of [findAndSend] when there are logs, none when there are
    not, and whether the pass goes on. *)
Definition query (prefix : string) (logs : list Log) (fromBlock toBlock : Z)
  (latestHead : Head) (b : broadcaster) : list call * bool :=
  if (0 <? length logs)%nat then
    match FindConsumedLogs (orm b) fromBlock toBlock with
    | inl broadcasts =>
        ([FindConsumedLogsCalled fromBlock toBlock;
          SendLogsCalled logs latestHead broadcasts], true)
    | inr _ =>
        ([FindConsumedLogsCalled fromBlock toBlock; failedLine prefix], false)
    end
  else ([], true).

(** The threshold [onNewHeads] hands to [deleteOlderLogs]. *)
Definition keptDepth (latestHead : Head) (b : broadcaster) : Z :=
  let highestNumConfirmations := Registrations.highestNumConfirmations (registrations b) in
  let keptLogsDepth := EthFinalityDepth (config b) in
  let keptLogsDepth :=
    if keptLogsDepth <? highestNumConfirmations then highestNumConfirmations else keptLogsDepth in
  let keptDepth := Int.sub64 (Number latestHead) (Int.int64 keptLogsDepth) in
  Int.uint64 (if keptDepth <? 0 then 0 else keptDepth).

Lemma findAndSend_run prefix logs lo hi head (b : broadcaster) :
  (0 <? length logs)%nat = true →
  findAndSend prefix logs lo hi head b =
    Done (query prefix logs lo hi head b).2 b (query prefix logs lo hi head b).1.
Proof.
  intros Hlen. unfold findAndSend, query. rewrite Hlen. run.
  by destruct (FindConsumedLogs (orm b) lo hi).
Qed.

Lemma dispatch_zero (head : Head) (b : broadcaster) :
  Registrations.highestNumConfirmations (registrations b) = 0 →
  dispatch head b =
    let '(logs, lowest, highest, _) := LogPool.getAndDeleteAll (logPool b) in
    Done tt (set_logPool ∅ (set_lastSeenHeadNumber (Number head) b))
      (receivedLine :: (query "" logs lowest highest head b).1).
Proof.
  intros Hzero. unfold dispatch. run. simpl. rewrite Hzero. simpl. run.
  destruct (Nat.ltb 0 (length (LogPool.ascending _))) eqn:Hlen.
  - rewrite (bind_Done _ _ _ _ _ _ (findAndSend_run _ _ _ _ _ _ Hlen)).
    run. simpl. by rewrite app_nil_r.
  - run. unfold query. by rewrite Hlen.
Qed.

Lemma dispatch_positive (head : Head) (b : broadcaster) :
  Registrations.highestNumConfirmations (registrations b) ≠ 0 →
  dispatch head b =
    let '(logs, minBlockNum) := LogPool.getLogsToSend (logPool b) (Number head) in
    let q := query "LogBroadcaster: " logs minBlockNum (Number head) head b in
    Done tt
      (if q.2
       then set_logPool (LogPool.deleteOlderLogs (logPool b) (keptDepth head b))
              (set_lastSeenHeadNumber (Number head) b)
       else set_lastSeenHeadNumber (Number head) b)
      (receivedLine :: q.1).
Proof.
  intros Hpos. unfold dispatch. run. simpl.
  destruct (Z.eqb_spec (Registrations.highestNumConfirmations (registrations b)) 0);
    [done|].
  simpl.
  destruct (Nat.ltb 0 (length (LogPool.ascending _))) eqn:Hlen.
  - rewrite (bind_Done _ _ _ _ _ _ (findAndSend_run _ _ _ _ _ _ Hlen)).
    unfold query. rewrite Hlen. simpl.
    destruct (FindConsumedLogs (orm b) _ _); simpl; run; reflexivity.
  - run. unfold query. rewrite Hlen. reflexivity.
Qed.

(** The mailbox of the heads once [RetrieveLatestAndClear] found an item. *)
Definition cleared (b : broadcaster) : broadcaster :=
  set_newHeads (utils.mkMailbox (utils.capacity (newHeads b)) []) b.

Definition mismatch (expected : string) (x : any) : call :=
  Logged Error ("expected `" +:+ expected +:+ "`, got " +:+ typeName x).

Lemma retrieveLatestHead_empty (fuel : nat) (latest : option Head) (b : broadcaster) :
  utils.queue (newHeads b) = [] →
  retrieveLatestHead (S fuel) latest b = Done latest b [].
Proof.
  intros Hq. simpl. run. unfold utils.RetrieveLatestAndClear. rewrite Hq. simpl.
  run. by destruct b.
Qed.

Lemma retrieveLatestHead_run (fuel : nat) (latest : option Head) (b : broadcaster) :
  retrieveLatestHead (S (S fuel)) latest b =
    match last (utils.queue (newHeads b)) with
    | None => Done latest b []
    | Some (HeadItem head) => Done (Some head) (cleared b) []
    | Some x => Done latest (cleared b) [mismatch "models.Head" x]
    end.
Proof.
  destruct (last (utils.queue (newHeads b))) as [x|] eqn:Hlast.
  - change (retrieveLatestHead (S (S fuel)) latest b) with
      ((let* b := get in
        let '(item, mailbox) := utils.RetrieveLatestAndClear (newHeads b) in
        modify (set_newHeads mailbox);;
        match item with
        | None => ret latest
        | Some (HeadItem head) => retrieveLatestHead (S fuel) (Some head)
        | Some x =>
            logf Error ("expected `models.Head`, got " +:+ typeName x);;
            retrieveLatestHead (S fuel) latest
        end) b).
    run. unfold utils.RetrieveLatestAndClear. rewrite Hlast. run.
    fold (cleared b).
    destruct x; run; by rewrite retrieveLatestHead_empty.
  - apply retrieveLatestHead_empty.
    destruct (utils.queue (newHeads b)) as [|y q] using rev_ind; [done|].
    by rewrite last_snoc in Hlast.
Qed.

Lemma dispatch_total (head : Head) (b : broadcaster) :
  ∃ b' calls, dispatch head b = Done tt b' calls.
Proof.
  destruct (decide (Registrations.highestNumConfirmations (registrations b) = 0)) as [Hz|Hp].
  - rewrite (dispatch_zero _ _ Hz). simpl. by eexists _, _.
  - rewrite (dispatch_positive _ _ Hp). simpl. by eexists _, _.
Qed.

Lemma onNewHeads_run (b : broadcaster) :
  onNewHeads b =
    match last (utils.queue (newHeads b)) with
    | None => Done tt b []
    | Some (HeadItem head) => dispatch head (cleared b)
    | Some x => Done tt (cleared b) [mismatch "models.Head" x]
    end.
Proof.
  unfold onNewHeads. run.
  destruct (utils.queue (newHeads b)) as [|y q] eqn:Hq.
  - rewrite (bind_Done _ _ _ _ _ _ (retrieveLatestHead_empty 0 None b Hq)). done.
  - simpl length. rewrite (bind_Done _ _ _ _ _ _ (retrieveLatestHead_run _ None b)) ||
      (unfold bind; rewrite retrieveLatestHead_run).
    rewrite Hq.
    destruct (last (y :: q)) as [[head|reg|n]|]; try done.
    destruct (dispatch_total head (cleared b)) as (b' & calls & ->). done.
Qed.

(** ** The subscription mailboxes *)

Section Draining.

(** What a loop over the pending items computes: [step] is
    [registrations.addSubscriber] or [registrations.removeSubscriber], [line]
    the line logged for a registration. *)
Variable step : Registrations.regs → registration → Registrations.regs * bool.
Variable line : call.

Fixpoint drain (items : list any) (r : Registrations.regs) (needsResubscribe : bool)
  : Registrations.regs * bool * list call :=
  match items with
  | [] => (r, needsResubscribe, [])
  | RegistrationItem reg :: items =>
      let '(r1, needsResub) := step r reg in
      let '(r2, needs, calls) :=
        drain items r1 (if needsResub then true else needsResubscribe) in
      (r2, needs, line :: calls)
  | x :: items =>
      let '(r2, needs, calls) := drain items r needsResubscribe in
      (r2, needs, mismatch "registration" x :: calls)
  end.

(** An item that is not a registration costs one line and nothing else. *)
Lemma drain_skips (pre post : list any) (x : any) r needs :
  (∀ reg, x ≠ RegistrationItem reg) →
  ∃ r' needs' calls1 calls2,
    drain (pre ++ x :: post) r needs =
      (r', needs', calls1 ++ mismatch "registration" x :: calls2)
    ∧ drain (pre ++ post) r needs = (r', needs', calls1 ++ calls2)
    ∧ length calls1 = length pre.
Proof.
  intros Hx. revert r needs. induction pre as [|y pre IH]; intros r needs; simpl.
  - destruct x as [h|reg|n]; [|by destruct (Hx reg)|]; simpl;
      destruct (drain post r needs) as [[r' needs'] calls];
      by exists r', needs', [], calls.
  - destruct y as [h|reg|n].
    + destruct (IH r needs) as (r' & needs' & c1 & c2 & -> & -> & Hlen).
      exists r', needs', (mismatch "registration" (HeadItem h) :: c1), c2.
      simpl. by rewrite Hlen.
    + destruct (step r reg) as [r1 n1].
      destruct (IH r1 (if n1 then true else needs))
        as (r' & needs' & c1 & c2 & -> & -> & Hlen).
      exists r', needs', (line :: c1), c2. simpl. by rewrite Hlen.
    + destruct (IH r needs) as (r' & needs' & c1 & c2 & -> & -> & Hlen).
      exists r', needs', (mismatch "registration" (OtherItem n) :: c1), c2.
      simpl. by rewrite Hlen.
Qed.

End Draining.

Arguments Registrations.addSubscriber : simpl never.
Arguments Registrations.removeSubscriber : simpl never.

Definition subscribingLine : call := Logged Debug "LogBroadcaster: Subscribing listener".
Definition unsubscribingLine : call := Logged Debug "LogBroadcaster: Unsubscribing listener".

Definition emptied {A} (m : utils.Mailbox A) : utils.Mailbox A :=
  utils.mkMailbox (utils.capacity m) [].

Lemma onAddSubscribers_loop_run (fuel : nat) (needs : bool) (b : broadcaster) :
  (length (utils.queue (addSubscriber b)) < fuel)%nat →
  onAddSubscribers_loop fuel needs b =
    let '(r, needs', calls) :=
      drain Registrations.addSubscriber subscribingLine
        (utils.queue (addSubscriber b)) (registrations b) needs in
    Done needs' (set_registrations r (set_addSubscriber (emptied (addSubscriber b)) b)) calls.
Proof.
  revert needs b. induction fuel as [|fuel IH]; intros needs b Hfuel; [lia|].
  simpl. run. unfold utils.Retrieve.
  destruct (addSubscriber b) as [cap q] eqn:Hmb. simpl in *.
  destruct q as [|x q]; simpl in *.
  - run. unfold emptied. simpl. rewrite <- Hmb. by destruct b.
  - destruct x as [h|reg|n]; run.
    + rewrite IH by (simpl; lia). simpl.
      destruct (drain _ _ q _ _) as [[r needs'] calls]. reflexivity.
    + destruct (Registrations.addSubscriber (registrations b) reg) as [r1 n1] eqn:Hstep.
      run. rewrite IH by (simpl; lia). simpl.
      destruct (drain _ _ q _ _) as [[r needs'] calls]. reflexivity.
    + rewrite IH by (simpl; lia). simpl.
      destruct (drain _ _ q _ _) as [[r needs'] calls]. reflexivity.
Qed.

Lemma onRmSubscribers_loop_run (fuel : nat) (needs : bool) (b : broadcaster) :
  (length (utils.queue (rmSubscriber b)) < fuel)%nat →
  onRmSubscribers_loop fuel needs b =
    let '(r, needs', calls) :=
      drain Registrations.removeSubscriber unsubscribingLine
        (utils.queue (rmSubscriber b)) (registrations b) needs in
    Done needs' (set_registrations r (set_rmSubscriber (emptied (rmSubscriber b)) b)) calls.
Proof.
  revert needs b. induction fuel as [|fuel IH]; intros needs b Hfuel; [lia|].
  simpl. run. unfold utils.Retrieve.
  destruct (rmSubscriber b) as [cap q] eqn:Hmb. simpl in *.
  destruct q as [|x q]; simpl in *.
  - run. unfold emptied. simpl. rewrite <- Hmb. by destruct b.
  - destruct x as [h|reg|n]; run.
    + rewrite IH by (simpl; lia). simpl.
      destruct (drain _ _ q _ _) as [[r needs'] calls]. reflexivity.
    + destruct (Registrations.removeSubscriber (registrations b) reg) as [r1 n1] eqn:Hstep.
      run. rewrite IH by (simpl; lia). simpl.
      destruct (drain _ _ q _ _) as [[r needs'] calls]. reflexivity.
    + rewrite IH by (simpl; lia). simpl.
      destruct (drain _ _ q _ _) as [[r needs'] calls]. reflexivity.
Qed.

Lemma onAddSubscribers_run (b : broadcaster) :
  onAddSubscribers b =
    let '(r, needs, calls) :=
      drain Registrations.addSubscriber subscribingLine
        (utils.queue (addSubscriber b)) (registrations b) false in
    Done needs (set_registrations r (set_addSubscriber (emptied (addSubscriber b)) b)) calls.
Proof.
  unfold onAddSubscribers. run. apply onAddSubscribers_loop_run. lia.
Qed.

Lemma onRmSubscribers_run (b : broadcaster) :
  onRmSubscribers b =
    let '(r, needs, calls) :=
      drain Registrations.removeSubscriber unsubscribingLine
        (utils.queue (rmSubscriber b)) (registrations b) false in
    Done needs (set_registrations r (set_rmSubscriber (emptied (rmSubscriber b)) b)) calls.
Proof.
  unfold onRmSubscribers. run. apply onRmSubscribers_loop_run. lia.
Qed.

(** C9. An item of another type than the one expected does not stop the
    event loop.  In the mailbox of the heads, where the newest item is taken
    and the others are forgotten, the loop logs the mismatch and goes round
    again with the head it had, and [onNewHeads] returns having made no other
    call.  In the mailboxes of the subscriptions, [onAddSubscribers] and
    [onRmSubscribers] return what they return without the item, the items
    before and after it processed alike, with one more line, the mismatch,
    at the item's place. *)
Theorem type_mismatch_is_skipped (x : any) (b : broadcaster) :
  ((∀ head, x ≠ HeadItem head) →
   ∀ older,
     utils.queue (newHeads b) = older ++ [x] →
     (∀ fuel latest,
        retrieveLatestHead (S fuel) latest b =
          (logf Error ("expected `models.Head`, got " +:+ typeName x);;
           retrieveLatestHead fuel latest) (cleared b))
     ∧ onNewHeads b = Done tt (cleared b) [mismatch "models.Head" x])
  ∧ ((∀ reg, x ≠ RegistrationItem reg) →
     ∀ pre post,
       (utils.queue (addSubscriber b) = pre ++ x :: post →
        ∃ needs b' calls1 calls2,
          onAddSubscribers b =
            Done needs b' (calls1 ++ mismatch "registration" x :: calls2)
          ∧ onAddSubscribers
              (set_addSubscriber
                 (utils.mkMailbox (utils.capacity (addSubscriber b)) (pre ++ post)) b) =
              Done needs b' (calls1 ++ calls2)
          ∧ length calls1 = length pre)
       ∧ (utils.queue (rmSubscriber b) = pre ++ x :: post →
          ∃ needs b' calls1 calls2,
            onRmSubscribers b =
              Done needs b' (calls1 ++ mismatch "registration" x :: calls2)
            ∧ onRmSubscribers
                (set_rmSubscriber
                   (utils.mkMailbox (utils.capacity (rmSubscriber b)) (pre ++ post)) b) =
                Done needs b' (calls1 ++ calls2)
            ∧ length calls1 = length pre)).
Proof.
  split.
  - intros Hx older Hq. split.
    + intros fuel latest. simpl. run. unfold utils.RetrieveLatestAndClear.
      rewrite Hq, last_snoc. run. fold (cleared b).
      destruct x as [h|reg|n]; [by destruct (Hx h)| |]; reflexivity.
    + rewrite onNewHeads_run, Hq, last_snoc.
      destruct x as [h|reg|n]; [by destruct (Hx h)| |]; reflexivity.
  - intros Hx pre post. split; intros Hq.
    + rewrite !onAddSubscribers_run. simpl. rewrite Hq.
      destruct (drain_skips Registrations.addSubscriber subscribingLine
                  pre post x (registrations b) false Hx)
        as (r' & needs' & c1 & c2 & -> & -> & Hlen).
      by eexists _, _, c1, c2.
    + rewrite !onRmSubscribers_run. simpl. rewrite Hq.
      destruct (drain_skips Registrations.removeSubscriber unsubscribingLine
                  pre post x (registrations b) false Hx)
        as (r' & needs' & c1 & c2 & -> & -> & Hlen).
      by eexists _, _, c1, c2.
Qed.

Lemma type_mismatch_is_skipped_witness :
  ∃ needs b' calls1 calls2,
    onAddSubscribers crowded =
      Done needs b' (calls1 ++ mismatch "registration" (OtherItem "string") :: calls2)
    ∧ onAddSubscribers
        (set_addSubscriber
           (utils.mkMailbox 0 ([RegistrationItem jobA] ++ [RegistrationItem jobB])) crowded) =
        Done needs b' (calls1 ++ calls2)
    ∧ length calls1 = length [RegistrationItem jobA].
Proof.
  apply (type_mismatch_is_skipped (OtherItem "string") crowded);
    [intros reg; discriminate | reflexivity].
Defined.

(** ** Heads that pile up *)

Definition droppedLine : call :=
  Logged Trace "LogBroadcaster: Dropped the older head in the mailbox, while inserting latest (which is fine)".

(** [OnNewLongestChain] called for each head in turn. *)
Fixpoint deliverHeads (heads : list Head) : M unit :=
  match heads with
  | [] => ret tt
  | head :: heads => OnNewLongestChain head;; deliverHeads heads
  end.

Lemma OnNewLongestChain_run (head : Head) (b : broadcaster) :
  utils.capacity (newHeads b) = 1%nat →
  (length (utils.queue (newHeads b)) <= 1)%nat →
  ∃ calls,
    OnNewLongestChain head b =
      Done tt (set_newHeads (utils.mkMailbox 1 [HeadItem head]) b) calls
    ∧ Forall (λ c, c = droppedLine) calls.
Proof.
  intros Hcap Hlen. unfold OnNewLongestChain. run. unfold utils.Deliver.
  rewrite Hcap. destruct (utils.queue (newHeads b)) as [|x [|y q]]; simpl in *.
  - run. eexists. split; [reflexivity|]. constructor.
  - run. eexists. split; [reflexivity|]. by repeat constructor.
  - lia.
Qed.

Lemma deliverHeads_run (earlier : list Head) (head : Head) (b : broadcaster) :
  utils.capacity (newHeads b) = 1%nat →
  (length (utils.queue (newHeads b)) <= 1)%nat →
  ∃ calls,
    deliverHeads (earlier ++ [head]) b =
      Done tt (set_newHeads (utils.mkMailbox 1 [HeadItem head]) b) calls
    ∧ Forall (λ c, c = droppedLine) calls.
Proof.
  revert b. induction earlier as [|h earlier IH]; intros b Hcap Hlen; simpl.
  - destruct (OnNewLongestChain_run head b Hcap Hlen) as (calls & Hrun & Hall).
    rewrite (bind_Done _ _ _ _ _ _ Hrun). run.
    eexists. split; [reflexivity|]. by rewrite app_nil_r.
  - destruct (OnNewLongestChain_run h b Hcap Hlen) as (calls & Hrun & Hall).
    rewrite (bind_Done _ _ _ _ _ _ Hrun).
    destruct (IH (set_newHeads (utils.mkMailbox 1 [HeadItem h]) b))
      as (calls' & -> & Hall'); [done|simpl; lia|].
    eexists. split; [reflexivity|]. by apply Forall_app.
Qed.

Lemma query_calls prefix logs lo hi head (b : broadcaster) (c : call) :
  c ∈ (query prefix logs lo hi head b).1 →
  (c = FindConsumedLogsCalled lo hi)
  ∨ (∃ broadcasts, c = SendLogsCalled logs head broadcasts
                   ∧ FindConsumedLogs (orm b) lo hi = inl broadcasts)
  ∨ (c = failedLine prefix ∧ ∃ err, FindConsumedLogs (orm b) lo hi = inr err).
Proof.
  unfold query. destruct (Nat.ltb 0 (length logs)); [|set_solver].
  destruct (FindConsumedLogs (orm b) lo hi) as [broadcasts|err]; simpl;
    rewrite !elem_of_cons, elem_of_nil; intros [->|[->|[]]]; eauto.
Qed.

(** A pass logs the head it received once, stores its number, and sends
    logs, if it does, for that head. *)
Lemma dispatch_shape (head : Head) (b : broadcaster) :
  ∃ b' calls,
    dispatch head b = Done tt b' (receivedLine :: calls)
    ∧ b' = set_logPool (logPool b') (set_lastSeenHeadNumber (Number head) b)
    ∧ (receivedLine ∉ calls)
    ∧ ∀ logs h broadcasts, SendLogsCalled logs h broadcasts ∈ calls → h = head.
Proof.
  destruct (decide (Registrations.highestNumConfirmations (registrations b) = 0)) as [Hz|Hp].
  - rewrite (dispatch_zero _ _ Hz). simpl.
    eexists _, _. split; [reflexivity|]. split; [reflexivity|]. split.
    + intros Hin. apply query_calls in Hin as [?|[(? & ? & ?)|[? ?]]]; discriminate.
    + intros logs h bs Hin.
      apply query_calls in Hin as [?|[(? & ? & ?)|[? ?]]];
        try discriminate; congruence.
  - rewrite (dispatch_positive _ _ Hp). simpl.
    eexists _, _. split; [reflexivity|]. split; [by destruct (query _ _ _ _ _ _).2|]. split.
    + intros Hin. apply query_calls in Hin as [?|[(? & ? & ?)|[? ?]]]; discriminate.
    + intros logs h bs Hin.
      apply query_calls in Hin as [?|[(? & ? & ?)|[? ?]]];
        try discriminate; congruence.
Qed.

(** C6. Heads delivered one after the other to the mailbox of capacity 1
    leave the last one in it, and no call but the lines on the dropped
    heads is made meanwhile.  [onNewHeads] then is the dispatch on that
    head with the mailbox emptied: one pass, which logs the head once,
    stores its number as the last seen, and sends logs for no other head.
    A further notification finds the mailbox empty and does nothing. *)
Theorem latest_head_only (earlier : list Head) (head : Head) (b : broadcaster) :
  utils.capacity (newHeads b) = 1%nat →
  (length (utils.queue (newHeads b)) <= 1)%nat →
  let b1 := set_newHeads (utils.mkMailbox 1 [HeadItem head]) b in
  (∃ calls1,
     deliverHeads (earlier ++ [head]) b = Done tt b1 calls1
     ∧ Forall (λ c, c = droppedLine) calls1)
  ∧ onNewHeads b1 = dispatch head (set_newHeads (utils.mkMailbox 1 []) b)
  ∧ ∃ b2 calls2,
      onNewHeads b1 = Done tt b2 (receivedLine :: calls2)
      ∧ (receivedLine ∉ calls2)
      ∧ lastSeenHeadNumber b2 = Number head
      ∧ utils.queue (newHeads b2) = []
      ∧ (∀ logs h broadcasts, SendLogsCalled logs h broadcasts ∈ calls2 → h = head)
      ∧ onNewHeads b2 = Done tt b2 [].
Proof.
  intros Hcap Hlen b1.
  split; [by apply deliverHeads_run|].
  assert (Hrun : onNewHeads b1 = dispatch head (set_newHeads (utils.mkMailbox 1 []) b))
    by (by rewrite onNewHeads_run).
  split; [exact Hrun|]. rewrite Hrun.
  destruct (dispatch_shape head (set_newHeads (utils.mkMailbox 1 []) b))
    as (b2 & calls2 & -> & Hb2 & Hone & Hsend).
  eexists _, _. split; [reflexivity|]. split; [done|].
  rewrite Hb2. split; [done|]. split; [done|]. split; [done|].
  by rewrite onNewHeads_run.
Qed.

Lemma latest_head_only_witness :
  utils.capacity (newHeads fresh) = 1%nat
  ∧ ∃ calls1,
      deliverHeads ([mkHead 10 1 0; mkHead 11 2 1] ++ [mkHead 12 3 2]) fresh =
        Done tt (set_newHeads (utils.mkMailbox 1 [HeadItem (mkHead 12 3 2)]) fresh) calls1
      ∧ Forall (λ c, c = droppedLine) calls1.
Proof.
  split; [reflexivity|].
  apply (latest_head_only [mkHead 10 1 0; mkHead 11 2 1] (mkHead 12 3 2) fresh);
    [reflexivity | simpl; lia].
Defined.

(** ** One pass *)

Lemma keptDepth_exact (head : Head) (b : broadcaster) :
  let kept := Z.max (EthFinalityDepth (config b))
                (Registrations.highestNumConfirmations (registrations b)) in
  0 <= Number head < 2 ^ 63 → 0 <= kept < 2 ^ 63 →
  keptDepth head b = Z.max (Number head - kept) 0.
Proof.
  intros kept HH Hk. unfold keptDepth.
  replace (if EthFinalityDepth (config b) <?
              Registrations.highestNumConfirmations (registrations b)
           then Registrations.highestNumConfirmations (registrations b)
           else EthFinalityDepth (config b)) with kept
    by (unfold kept; destruct (Z.ltb_spec (EthFinalityDepth (config b))
          (Registrations.highestNumConfirmations (registrations b))); lia).
  unfold Int.sub64, Int.int64.
  rewrite (wrap64_id kept) by (unfold Int.is_int64; lia).
  rewrite (wrap64_id (Number head - kept)) by (unfold Int.is_int64; lia).
  unfold Int.uint64, Int.uwrap64.
  destruct (Z.ltb_spec (Number head - kept) 0);
    rewrite Z.mod_small by lia; lia.
Qed.

(** C4, as the code has it.  A pass for a head numbered [H] stores [H] as
    the last seen and touches nothing but the pool.  When no listener asks
    for confirmations the pool is emptied through [getAndDeleteAll], and if
    it held logs [FindConsumedLogs lowest highest] is asked and, unless it
    fails, [sendLogs] is called.  Otherwise the logs are those of
    [getLogsToSend H]; if there are none, or if
    [FindConsumedLogs minBlockNum H] answers, whereupon [sendLogs] is
    called, the pool is evicted with
    [deleteOlderLogs (max (H - keptDepth) 0)], [keptDepth] the larger of
    [EthFinalityDepth] and the highest number of confirmations; if the query
    fails the pass ends there and the pool is as it was.  The threshold is
    the one stated as long as [H] is not negative and [keptDepth] is below
    [2^63], so that the conversion and the subtraction do not wrap. *)
Theorem dispatch_pass (head : Head) (b : broadcaster) :
  let H := Number head in
  let hnc := Registrations.highestNumConfirmations (registrations b) in
  let kept := Z.max (EthFinalityDepth (config b)) hnc in
  ∃ b' calls,
    dispatch head b = Done tt b' calls
    ∧ b' = set_logPool (logPool b') (set_lastSeenHeadNumber H b)
    ∧ if decide (hnc = 0) then
        let '(logs, lowest, highest, _) := LogPool.getAndDeleteAll (logPool b) in
        logPool b' = ∅
        ∧ calls =
            receivedLine ::
            match logs with
            | [] => []
            | _ =>
                FindConsumedLogsCalled lowest highest ::
                match FindConsumedLogs (orm b) lowest highest with
                | inl broadcasts => [SendLogsCalled logs head broadcasts]
                | inr _ => [failedLine ""]
                end
            end
      else
        let '(logs, minBlockNum) := LogPool.getLogsToSend (logPool b) H in
        let evicted :=
          0 <= H < 2 ^ 63 → 0 <= kept < 2 ^ 63 →
          logPool b' = LogPool.deleteOlderLogs (logPool b) (Z.max (H - kept) 0) in
        match logs with
        | [] => calls = [receivedLine] ∧ evicted
        | _ =>
            match FindConsumedLogs (orm b) minBlockNum H with
            | inl broadcasts =>
                calls = [receivedLine; FindConsumedLogsCalled minBlockNum H;
                         SendLogsCalled logs head broadcasts]
                ∧ evicted
            | inr _ =>
                calls = [receivedLine; FindConsumedLogsCalled minBlockNum H;
                         failedLine "LogBroadcaster: "]
                ∧ logPool b' = logPool b
            end
        end.
Proof.
  intros H hnc kept.
  destruct (decide (hnc = 0)) as [Hz|Hp].
  - rewrite (dispatch_zero _ _ Hz). simpl.
    eexists _, _. split; [reflexivity|]. split; [reflexivity|].
    split; [reflexivity|]. unfold query.
    destruct (LogPool.ascending (logPool b)) as [|l logs]; [done|]. simpl.
    by destruct (FindConsumedLogs (orm b) _ _).
  - rewrite (dispatch_positive _ _ Hp). simpl. unfold query.
    destruct (LogPool.ascending _) as [|l logs]; simpl.
    + eexists _, _. split; [reflexivity|]. split; [reflexivity|].
      split; [reflexivity|]. intros HH Hk. simpl.
      by rewrite (keptDepth_exact head b HH Hk).
    + destruct (FindConsumedLogs (orm b) _ _); simpl; eexists _, _;
        (split; [reflexivity|]); (split; [reflexivity|]);
        (split; [reflexivity|]); [|done].
      intros HH Hk. simpl. by rewrite (keptDepth_exact head b HH Hk).
Qed.

Lemma dispatch_pass_witness :
  ∃ b' calls,
    dispatch (mkHead 100 1 0) (holding ormEmpty jobA) = Done tt b' calls
    ∧ calls = [receivedLine; FindConsumedLogsCalled 10 100;
               SendLogsCalled [log10] (mkHead 100 1 0) []]
    ∧ logPool b' = LogPool.deleteOlderLogs (logPool (holding ormEmpty jobA)) 50.
Proof.
  destruct (dispatch_pass (mkHead 100 1 0) (holding ormEmpty jobA))
    as (b' & calls & Hrun & _ & Hrest).
  exists b', calls. split; [exact Hrun|].
  pose proof (Hrest <:
    (calls = [receivedLine; FindConsumedLogsCalled 10 100;
              SendLogsCalled [log10] (mkHead 100 1 0) []]
     ∧ (0 <= 100 < 2 ^ 63 → 0 <= 50 < 2 ^ 63 →
        logPool b' = LogPool.deleteOlderLogs (logPool (holding ormEmpty jobA)) 50)))
    as [Hcalls Hpool].
  split; [exact Hcalls|]. apply Hpool; lia.
Defined.

(** At head 100 the log of block 10 is below the threshold 50.  With the
    ORM down the pass ends at the failed query and the log is still in the
    pool, which eviction at 50 would have emptied.  And with a listener
    asking for [2^64 - 1] confirmations, [-1] as an [int64], the pass for
    head 10 evicts below 11 and the log is gone, where
    [max (10 - (2^64 - 1)) 0 = 0] would have kept it. *)
Lemma dispatch_eviction_counterexample :
  (∃ b' calls,
     dispatch (mkHead 100 1 0) (holding ormDown jobA) = Done tt b' calls
     ∧ logPool b' !! LogPool.key log10 = Some log10
     ∧ LogPool.deleteOlderLogs (logPool (holding ormDown jobA))
         (Z.max (100 - Z.max 50 3) 0) !! LogPool.key log10 = None)
  ∧ (∃ b' calls,
       dispatch (mkHead 10 1 0) (holding ormEmpty jobMax) = Done tt b' calls
       ∧ logPool b' !! LogPool.key log10 = None
       ∧ LogPool.deleteOlderLogs (logPool (holding ormEmpty jobMax))
           (Z.max (10 - Z.max 50 (2 ^ 64 - 1)) 0) !! LogPool.key log10 = Some log10).
Proof.
  split; eexists _, _; (split; [vm_compute; reflexivity|]); split; reflexivity.
Qed.

(** ** A failed query *)

(** A query that was made and failed: these are its calls. *)
Lemma query_failed prefix logs lo0 hi0 head (b : broadcaster) lo hi err :
  FindConsumedLogsCalled lo hi ∈ (query prefix logs lo0 hi0 head b).1 →
  FindConsumedLogs (orm b) lo hi = inr err →
  (query prefix logs lo0 hi0 head b).1 =
    [FindConsumedLogsCalled lo0 hi0; failedLine prefix]
  ∧ (query prefix logs lo0 hi0 head b).2 = false.
Proof.
  unfold query. destruct (Nat.ltb 0 (length logs)); simpl.
  - destruct (FindConsumedLogs (orm b) lo0 hi0) as [bs|err0] eqn:Hq; simpl; [|done].
    intros Hin Herr.
    apply elem_of_cons in Hin as [Hin|Hin].
    + injection Hin as -> ->. congruence.
    + apply list_elem_of_singleton in Hin. discriminate.
  - intros Hin. by apply elem_of_nil in Hin.
Qed.

(** The two branches on a failed query.  [onNewHeads] returns, and when
    [FindConsumedLogs] has failed in it, [sendLogs] has not been called.
    With listeners asking for confirmations the pool is then as it was
    before the pass, not even evicted, so that the logs are there for the
    next head; with none asking, the pool has been emptied by
    [getAndDeleteAll] before the query. *)
Lemma failed_query_aborts_pass (b : broadcaster) :
  ∃ b' calls,
    onNewHeads b = Done tt b' calls
    ∧ ∀ lo hi err,
        FindConsumedLogsCalled lo hi ∈ calls →
        FindConsumedLogs (orm b) lo hi = inr err →
        (∀ logs head broadcasts, SendLogsCalled logs head broadcasts ∉ calls)
        ∧ (Registrations.highestNumConfirmations (registrations b) ≠ 0 →
           logPool b' = logPool b)
        ∧ (Registrations.highestNumConfirmations (registrations b) = 0 →
           logPool b' = ∅).
Proof.
  rewrite onNewHeads_run.
  destruct (last (utils.queue (newHeads b))) as [[head|reg|n]|].
  2,3: eexists _, _; split; [reflexivity|]; intros lo hi err Hin;
       apply list_elem_of_singleton in Hin; discriminate.
  2: eexists _, _; split; [reflexivity|]; intros lo hi err Hin;
     by apply elem_of_nil in Hin.
  destruct (decide (Registrations.highestNumConfirmations (registrations b) = 0)) as [Hz|Hp].
  - rewrite (dispatch_zero head (cleared b) Hz). simpl.
    eexists _, _. split; [reflexivity|]. intros lo hi err Hin Herr.
    apply elem_of_cons in Hin as [Hin|Hin]; [discriminate|].
    apply (query_failed _ _ _ _ _ _ _ _ err) in Hin as [-> _]; [|exact Herr].
    split; [|split; [done|reflexivity]].
    intros logs h bs Hsend.
    apply elem_of_cons in Hsend as [?|Hsend]; [discriminate|].
    apply elem_of_cons in Hsend as [?|Hsend]; [discriminate|].
    apply list_elem_of_singleton in Hsend. discriminate.
  - rewrite (dispatch_positive head (cleared b) Hp). simpl.
    eexists _, _. split; [reflexivity|]. intros lo hi err Hin Herr.
    apply elem_of_cons in Hin as [Hin|Hin]; [discriminate|].
    apply (query_failed _ _ _ _ _ _ _ _ err) in Hin as [-> ->]; [|exact Herr].
    simpl. split; [|split; [done|intros; done]].
    intros logs h bs Hsend.
    apply elem_of_cons in Hsend as [?|Hsend]; [discriminate|].
    apply elem_of_cons in Hsend as [?|Hsend]; [discriminate|].
    apply list_elem_of_singleton in Hsend. discriminate.
Qed.

(** C1. No listener asks for confirmations, the log of block 10 is in the
    pool, head 12 is waiting and the ORM is down.  The pass takes the
    [highestNumConfirmations == 0] branch: [getAndDeleteAll] empties the
    pool, then the query fails and the pass returns without calling
    [sendLogs]; the log is in the pool no more and no later head can send
    it.  With the same pool, head and ORM and a listener that asks for 3
    confirmations the pass takes the other branch, where the query comes
    before any removal: it fails and the pool is as it was. *)
Theorem failed_query_loses_drained_logs :
  (∃ b' calls,
     onNewHeads (waiting jobZero) = Done tt b' calls
     ∧ Registrations.highestNumConfirmations (registrations (waiting jobZero)) = 0
     ∧ FindConsumedLogsCalled 10 10 ∈ calls
     ∧ FindConsumedLogs (orm (waiting jobZero)) 10 10 = inr "connection refused"
     ∧ (∀ logs head broadcasts, SendLogsCalled logs head broadcasts ∉ calls)
     ∧ logPool (waiting jobZero) !! LogPool.key log10 = Some log10
     ∧ logPool b' !! LogPool.key log10 = None)
  ∧ (∃ b' calls,
       onNewHeads (waiting jobA) = Done tt b' calls
       ∧ Registrations.highestNumConfirmations (registrations (waiting jobA)) = 3
       ∧ FindConsumedLogsCalled 10 12 ∈ calls
       ∧ FindConsumedLogs (orm (waiting jobA)) 10 12 = inr "connection refused"
       ∧ (∀ logs head broadcasts, SendLogsCalled logs head broadcasts ∉ calls)
       ∧ logPool b' = logPool (waiting jobA)).
Proof.
  split.
  - assert (E : ∃ b1, onNewHeads (waiting jobZero) =
                        Done tt b1 [receivedLine; FindConsumedLogsCalled 10 10;
                                    failedLine ""]
                      ∧ logPool b1 = ∅)
      by (eexists; split; vm_compute; reflexivity).
    destruct E as (b1 & E & Hpool).
    eexists b1, _. split; [exact E|]. split; [reflexivity|].
    split; [apply list_elem_of_further, list_elem_of_here|]. split; [reflexivity|].
    split; [|split; [reflexivity|by rewrite Hpool]].
    intros logs head broadcasts Hin.
    apply elem_of_cons in Hin as [?|Hin]; [discriminate|].
    apply elem_of_cons in Hin as [?|Hin]; [discriminate|].
    apply list_elem_of_singleton in Hin. discriminate.
  - assert (E : ∃ b1, onNewHeads (waiting jobA) =
                        Done tt b1 [receivedLine; FindConsumedLogsCalled 10 12;
                                    failedLine "LogBroadcaster: "]
                      ∧ logPool b1 = logPool (waiting jobA))
      by (eexists; split; vm_compute; reflexivity).
    destruct E as (b1 & E & Hpool).
    eexists b1, _. split; [exact E|]. split; [reflexivity|].
    split; [apply list_elem_of_further, list_elem_of_here|]. split; [reflexivity|].
    split; [|exact Hpool].
    intros logs head broadcasts Hin.
    apply elem_of_cons in Hin as [?|Hin]; [discriminate|].
    apply elem_of_cons in Hin as [?|Hin]; [discriminate|].
    apply list_elem_of_singleton in Hin. discriminate.
Qed.

(** ** Replay *)

(** [ReplayFromBlock] called for each block number in turn. *)
Fixpoint replayAll (numbers : list Z) : M unit :=
  match numbers with
  | [] => ret tt
  | number :: numbers => ReplayFromBlock number;; replayAll numbers
  end.

Lemma ReplayFromBlock_run (number : Z) (b : broadcaster) :
  ReplayFromBlock number b =
    Done tt (set_replayChannel (trySend (replayChannel b) number) b)
      [Logged Info "LogBroadcaster: Replay requested from block number: %v"].
Proof. reflexivity. Qed.

Lemma replayAll_pending (numbers : list Z) (n : Z) (b : broadcaster) :
  replayChannel b = mkBchan 1 [n] →
  ∃ calls, replayAll numbers b = Done tt b calls.
Proof.
  revert b. induction numbers as [|m numbers IH]; intros b Hch; simpl.
  - by eexists.
  - assert (Hm : ReplayFromBlock m b = Done tt b
             [Logged Info "LogBroadcaster: Replay requested from block number: %v"]).
    { rewrite ReplayFromBlock_run. unfold trySend. rewrite Hch. simpl.
      rewrite <- Hch. by destruct b. }
    rewrite (bind_Done _ _ _ _ _ _ Hm).
    destruct (IH b Hch) as [calls ->]. by eexists.
Qed.

Definition replayLine : call :=
  Logged Debug "LogBroadcaster: Returning from the event loop to replay logs from specific block number".

(** A receive from [chRawLogs] that is taken: the log received, or the
    zero value of a closed channel, goes to [onNewLog]. *)
Lemma eventLoop_loop_raw_log
  (schedule : list selectCase) (s : stream Log) (needs : bool)
  (b b' : broadcaster) r calls :
  eventLoop_loop (CaseRawLog :: schedule) (Some s) needs b = Done r b' calls →
  (logf Debug "LogBroadcaster: Received a log";;
   onNewLog (default zeroLog (head (pending s)));;
   eventLoop_loop schedule (Some (mkStream (tail (pending s)) (closed s))) needs) b
    = Done r b' calls.
Proof. by destruct s as [[|x l] [|]]. Qed.


(** The event loop does not touch the saved head: cleared by the round's
    [seedBackfill], it is still [None] when the loop returns. *)
Lemma onNewHeads_keeps_saved_head (b : broadcaster) :
  ∃ b' calls,
    onNewHeads b = Done tt b' calls ∧ highestSavedHead b' = highestSavedHead b.
Proof.
  rewrite onNewHeads_run.
  destruct (last (utils.queue (newHeads b))) as [[head|reg|n]|];
    try (by eexists _, _).
  destruct (dispatch_shape head (cleared b)) as (b' & calls & -> & -> & _).
  by eexists _, _.
Qed.

Lemma eventLoop_loop_keeps_saved_head
  (schedule : list selectCase) (chRawLogs : chan Log) (needs : bool)
  (b b' : broadcaster) r calls :
  eventLoop_loop schedule chRawLogs needs b = Done r b' calls →
  highestSavedHead b' = highestSavedHead b.
Proof.
  revert chRawLogs needs b calls.
  induction schedule as [|c schedule IH]; intros ch needs b calls; simpl; [done|].
  destruct c.
  - destruct ch as [s|]; [|done]. intros Hrun.
    apply (eventLoop_loop_raw_log schedule s needs b) in Hrun. revert Hrun.
    rewrite bind_logf.
    destruct (onNewLog_run (default zeroLog (head (pending s))) b) as [c1 Hlog].
    rewrite (bind_Done _ _ _ _ _ _ Hlog).
    destruct (eventLoop_loop schedule _ _ _) eqn:Hrest; [|done..].
    intros [= <- <- <-]. by rewrite (IH _ _ _ _ Hrest).
  - destruct (onNewHeads_keeps_saved_head b) as (b1 & c1 & Hheads & Hsame).
    rewrite (bind_Done _ _ _ _ _ _ Hheads).
    destruct (eventLoop_loop schedule _ _ _) eqn:Hrest; [|done..].
    intros [= <- <- <-]. by rewrite (IH _ _ _ _ Hrest).
  - by intros [= <- <- <-].
  - unfold bind. rewrite onAddSubscribers_run.
    destruct (drain _ _ _ _ _) as [[r1 n1] c1].
    destruct (eventLoop_loop schedule _ _ _) eqn:Hrest; [|done..].
    intros [= <- <- <-]. by rewrite (IH _ _ _ _ Hrest).
  - unfold bind. rewrite onRmSubscribers_run.
    destruct (drain _ _ _ _ _) as [[r1 n1] c1].
    destruct (eventLoop_loop schedule _ _ _) eqn:Hrest; [|done..].
    intros [= <- <- <-]. by rewrite (IH _ _ _ _ Hrest).
  - run. destruct (recv (replayChannel b)) as [[blockNumber ch']|]; [|done].
    run. by intros [= <- <- <-].
  - destruct needs.
    + run. by intros [= <- <- <-].
    + apply IH.
  - by intros [= <- <- <-].
Qed.

Definition startLine : call := Logged Debug "LogBroadcaster: Starting the event loop".

(** When the event loop of a round returns [(true, nil)], the resubscribe
    loop goes round. *)
Lemma startResubscribeLoop_goes_round
  (c : cycle) (cycles : list cycle) (ch0 ch1 ch2 : chan Log)
  (b0 bA bB : broadcaster) (callsA callsB : list call) :
  resubscribe c ch0 b0 = Done (Some ch1) bA callsA →
  eventLoop (schedule c) ch1 bA = Done (true, None, ch2) bB callsB →
  startResubscribeLoop_loop (c :: cycles) ch0 b0 =
    after (callsA ++ callsB) (startResubscribeLoop_loop cycles ch2 bB).
Proof.
  intros Hre Hloop. simpl.
  rewrite (bind_Done _ _ _ _ _ _ Hre), (bind_Done _ _ _ _ _ _ Hloop). simpl.
  destruct (startResubscribeLoop_loop cycles ch2 bB); simpl; by rewrite ?app_assoc.
Qed.

(** C2, as the code has it.  [ReplayFromBlock] never waits: with the slot
    of the replay channel free the number is written to it, and with a
    request pending the new one is dropped, so that of the requests made
    before the event loop takes one it is the first that stays.  The event
    loop that receives it sets the backfill block number to it, valid, and
    returns [(true, nil)]; the resubscribe loop then goes round, and the
    next round, with no saved head left as it is after the first round
    ([resubscribe_backfills], [eventLoop_loop_keeps_saved_head]), asks for
    the backfill from that block. *)
Theorem replay_request_served (n : Z) (later : list Z) (b : broadcaster) :
  replayChannel b = mkBchan 1 [] →
  ∃ calls,
    replayAll (n :: later) b = Done tt (set_replayChannel (mkBchan 1 [n]) b) calls
    ∧ (∀ schedule chRawLogs needsResubscribe,
         eventLoop_loop (CaseReplay :: schedule) chRawLogs needsResubscribe
           (set_replayChannel (mkBchan 1 [n]) b) =
           Done (true, None, chRawLogs)
             (set_backfillBlockNumber (null.mkInt64 n true) b)
             [replayLine])
    ∧ (∀ c cycles ch0 ch1 b0 calls0 schedule',
         resubscribe c ch0 b0 =
           Done (Some ch1) (set_replayChannel (mkBchan 1 [n]) b) calls0 →
         schedule c = CaseReplay :: schedule' →
         startResubscribeLoop_loop (c :: cycles) ch0 b0 =
           after (calls0 ++ [startLine; replayLine])
             (startResubscribeLoop_loop cycles ch1
                (set_backfillBlockNumber (null.mkInt64 n true) b)))
    ∧ (∀ c chRawLogs,
         createAbort c = false → highestSavedHead b = None →
         ∃ r b' calls',
           resubscribe c chRawLogs (set_backfillBlockNumber (null.mkInt64 n true) b) =
             Done r b' calls'
           ∧ BackfillLogsCalled (null.mkInt64 n true)
               (Registrations.addressesAndTopics (registrations b)).1
               (Registrations.addressesAndTopics (registrations b)).2 ∈ calls').
Proof.
  intros Hch.
  destruct (replayAll_pending later n (set_replayChannel (mkBchan 1 [n]) b) eq_refl)
    as [calls Hlater].
  assert (Hreplay : ∀ schedule chRawLogs needsResubscribe,
            eventLoop_loop (CaseReplay :: schedule) chRawLogs needsResubscribe
              (set_replayChannel (mkBchan 1 [n]) b) =
              Done (true, None, chRawLogs)
                (set_backfillBlockNumber (null.mkInt64 n true) b) [replayLine]).
  { intros schedule chRawLogs needs. simpl. run. simpl. run. simpl.
    unfold replayLine. rewrite <- Hch. by destruct b. }
  eexists. split; [|split; [|split]].
  - simpl. rewrite (bind_Done _ _ _ _ _ _ (ReplayFromBlock_run n b)).
    unfold trySend. rewrite Hch. simpl. rewrite Hlater. reflexivity.
  - exact Hreplay.
  - intros c cycles ch0 ch1 b0 calls0 schedule' Hre Hsched.
    apply (startResubscribeLoop_goes_round c cycles ch0 ch1 ch1 b0 _ _ _ _ Hre).
    unfold eventLoop. rewrite bind_logf, Hsched, Hreplay. reflexivity.
  - intros c chRawLogs Hcreate Hnone.
    destruct (resubscribe_backfills c chRawLogs
                (set_backfillBlockNumber (null.mkInt64 n true) b) Hcreate)
      as (r & b' & calls' & Hrun & Hin & _).
    unfold seeded in Hin. rewrite seedBackfill_run in Hin. simpl in Hin.
    rewrite Hnone in Hin. by eexists _, _, _.
Qed.

Lemma replay_request_served_witness :
  replayChannel fresh = mkBchan 1 []
  ∧ ∃ calls,
      replayAll [5; 7] fresh = Done tt (set_replayChannel (mkBchan 1 [5]) fresh) calls.
Proof.
  split; [reflexivity|].
  destruct (replay_request_served 5 [7] fresh eq_refl) as (calls & Hrun & _).
  exists calls. exact Hrun.
Defined.

(** Two requests, for block 5 and then for block 7, before the event loop
    takes one: the loop receives 5, the backfill block number is 5 and not
    7, and nothing is pending any more. *)
Lemma replay_newer_request_is_dropped :
  ∃ b' calls,
    (ReplayFromBlock 5;; ReplayFromBlock 7;; eventLoop [CaseReplay] None) fresh =
      Done (true, None, None) b' calls
    ∧ backfillBlockNumber b' = null.mkInt64 5 true
    ∧ backfillBlockNumber b' ≠ null.mkInt64 7 true
    ∧ buf (replayChannel b') = [].
Proof. eexists _, _. split; [reflexivity|]. by repeat split. Qed.

(** * More of [broadcaster.go] *)

(** ** The warning on a far away log *)

Definition farLine : call :=
  Logged Warn "LogBroadcaster: Detected a large block number difference between a log and recently seen head. This may indicate a problem with data received from the chain or major network delays.".

Lemma maybeWarn_exact (n : Z) (b : broadcaster) :
  - 2 ^ 63 < n - lastSeenHeadNumber b < 2 ^ 63 →
  maybeWarnOnLargeBlockNumberDifference n b =
    Done tt b
      (if (0 <? lastSeenHeadNumber b) && (1000 <? Z.abs (n - lastSeenHeadNumber b))
       then [farLine] else []).
Proof.
  intros Hd. unfold maybeWarnOnLargeBlockNumberDifference. run.
  unfold Int.sub64, Int.neg64.
  rewrite (wrap64_id (n - lastSeenHeadNumber b)) by (unfold Int.is_int64; lia).
  destruct (Z.ltb_spec (n - lastSeenHeadNumber b) 0).
  - rewrite wrap64_id by (unfold Int.is_int64; lia).
    replace (Z.abs (n - lastSeenHeadNumber b)) with (- (n - lastSeenHeadNumber b)) by lia.
    by destruct (_ && _).
  - replace (Z.abs (n - lastSeenHeadNumber b)) with (n - lastSeenHeadNumber b) by lia.
    by destruct (_ && _).
Qed.

(** X1. The calls of [onNewLog] are at most the one warning, which is given
    exactly when a head above 0 has been seen and the block of the log is
    more than 1000 away from it, for a block number and a head below
    [2^63]; in particular no log warns before the first head. *)
Theorem onNewLog_warns_when_far (log : Log) (b : broadcaster) :
  0 <= BlockNumber log < 2 ^ 63 →
  0 <= lastSeenHeadNumber b < 2 ^ 63 →
  onNewLog log b =
    Done tt (set_logPool (poolAfterLog log b) b)
      (if (0 <? lastSeenHeadNumber b)
          && (1000 <? Z.abs (BlockNumber log - lastSeenHeadNumber b))
       then [farLine] else []).
Proof.
  intros Hn Hl. unfold onNewLog, Int.int64.
  rewrite (wrap64_id (BlockNumber log)) by (unfold Int.is_int64; lia).
  rewrite (bind_Done _ _ _ _ _ _ (maybeWarn_exact (BlockNumber log) b ltac:(lia))).
  run. unfold poolAfterLog.
  destruct (Removed log); [|destruct (Registrations.isAddressRegistered _ _)];
    simpl; rewrite ?app_nil_r; try reflexivity.
  by destruct b.
Qed.

(** Head 5000 has been seen; a log of block 10 is 4990 blocks away. *)
Definition seen5000 : broadcaster := set_lastSeenHeadNumber 5000 (holding ormEmpty jobA).

Lemma onNewLog_warns_when_far_witness :
  onNewLog log10 seen5000 =
    Done tt (set_logPool (poolAfterLog log10 seen5000) seen5000) [farLine].
Proof.
  apply (onNewLog_warns_when_far log10 seen5000); by vm_compute.
Defined.

(** ** What a pass keeps in the pool *)

Lemma keptDepth_bounds (head : Head) (b : broadcaster) :
  0 <= Number head < 2 ^ 63 →
  0 <= EthFinalityDepth (config b) < 2 ^ 63 →
  0 <= Registrations.highestNumConfirmations (registrations b) < 2 ^ 63 →
  0 <= keptDepth head b <= Number head
  ∧ keptDepth head b <= Z.max 0 (Number head - EthFinalityDepth (config b))
  ∧ keptDepth head b
    <= Z.max 0 (Number head - Registrations.highestNumConfirmations (registrations b)).
Proof.
  intros HH He Hc. rewrite keptDepth_exact by lia. lia.
Qed.

(** X2. With listeners asking for confirmations, a pass for head [H] never
    takes out of the pool a log whose block is within [EthFinalityDepth]
    blocks of [H], or within the highest number of confirmations of it, or
    a log of block [H] and later: such a log is in the pool after the pass
    as it was before, whether the query of the pass failed or not (all
    numbers below [2^63]). *)
Theorem dispatch_keeps_recent_logs
  (head : Head) (b : broadcaster) (k : Z * Z) (l : Log) :
  Registrations.highestNumConfirmations (registrations b) ≠ 0 →
  0 <= Number head < 2 ^ 63 →
  0 <= EthFinalityDepth (config b) < 2 ^ 63 →
  0 <= Registrations.highestNumConfirmations (registrations b) < 2 ^ 63 →
  logPool b !! k = Some l →
  Number head - EthFinalityDepth (config b) <= BlockNumber l
  ∨ Number head - Registrations.highestNumConfirmations (registrations b)
    <= BlockNumber l →
  0 <= BlockNumber l →
  ∃ b' calls,
    dispatch head b = Done tt b' calls ∧ logPool b' !! k = Some l.
Proof.
  intros Hp HH He Hc Hk Hrecent Hl.
  destruct (keptDepth_bounds head b HH He Hc) as (_ & Hb1 & Hb2).
  rewrite (dispatch_positive _ _ Hp). simpl.
  eexists _, _. split; [reflexivity|].
  destruct (query _ _ _ _ _ _).2; simpl; [|done].
  unfold LogPool.deleteOlderLogs. apply map_lookup_filter_Some.
  split; [done|]. simpl. lia.
Qed.

Lemma dispatch_keeps_recent_logs_witness :
  ∃ b' calls,
    dispatch (mkHead 12 1 0) (holding ormEmpty jobA) = Done tt b' calls
    ∧ logPool b' !! LogPool.key log10 = Some log10.
Proof.
  apply (dispatch_keeps_recent_logs (mkHead 12 1 0) (holding ormEmpty jobA)
           (LogPool.key log10) log10);
    try (by vm_compute).
  left. by vm_compute.
Defined.

(** ** The saved head is used once *)

(** X3. [seedBackfill] uses the saved head once: a second run changes
    nothing and makes no call, so that only the first round of the
    resubscribe loop computes a start from it, or warns of the skip. *)
Theorem seedBackfill_once (b : broadcaster) :
  ∃ b1 calls,
    seedBackfill b = Done tt b1 calls
    ∧ highestSavedHead b1 = None
    ∧ seedBackfill b1 = Done tt b1 []
    ∧ (seedBackfill;; seedBackfill) b = seedBackfill b.
Proof.
  assert (Hsecond : ∀ b1, highestSavedHead b1 = None → seedBackfill b1 = Done tt b1 [])
    by (intros b1 H1; by rewrite seedBackfill_run, H1).
  rewrite seedBackfill_run.
  destruct (highestSavedHead b) as [head|] eqn:Hh.
  - destruct (BlockBackfillSkip (config b)) eqn:Hskip.
    + eexists _, _. split; [reflexivity|]. split; [done|]. split; [by apply Hsecond|].
      unfold bind. rewrite seedBackfill_run, Hh, Hskip. by rewrite Hsecond.
    + eexists _, _. split; [reflexivity|]. split; [done|]. split; [by apply Hsecond|].
      unfold bind. rewrite seedBackfill_run, Hh, Hskip. by rewrite Hsecond.
  - eexists _, _. split; [reflexivity|]. split; [done|]. split; [by apply Hsecond|].
    unfold bind. rewrite seedBackfill_run, Hh. by rewrite Hsecond.
Qed.

(** X4. The block the backfill starts from is never negative, whatever the
    head and the configuration; and for a head that is not negative and two
    depths that are not negative and together below [2^63], it is not after
    the saved head. *)
Theorem backfillFrom_bounds (head : Head) (b : broadcaster) :
  0 <= backfillFrom head b < 2 ^ 63
  ∧ (0 <= Number head < 2 ^ 63 →
     0 <= Registrations.highestNumConfirmations (registrations b) →
     0 <= BlockBackfillDepth (config b) →
     Registrations.highestNumConfirmations (registrations b)
       + BlockBackfillDepth (config b) < 2 ^ 63 →
     backfillFrom head b <= Number head).
Proof.
  split.
  - unfold backfillFrom, Int.sub64.
    set (z := _ - Int.int64 (BlockBackfillDepth (config b))).
    assert (- 2 ^ 63 <= Int.wrap64 z < 2 ^ 63).
    { unfold Int.wrap64. pose proof (Z.mod_pos_bound (z + 2 ^ 63) (2 ^ 64)). lia. }
    destruct (Z.ltb_spec (Int.wrap64 z) 0); lia.
  - intros HH Hc Hd Hsum. rewrite backfillFrom_exact by lia. lia.
Qed.

Lemma backfillFrom_bounds_witness :
  backfillFrom (mkHead 15 1 0) restarted <= 15.
Proof.
  apply (backfillFrom_bounds (mkHead 15 1 0) restarted); by vm_compute.
Defined.

(** ** What the event loop leaves alone, and why it returns *)

(** The fields no branch of the event loop writes. *)
Definition loopFixed (b : broadcaster)
  : ORM * Config * bool * Z * option Head :=
  (orm b, config b, connected b, trackedAddressesCount b, highestSavedHead b).

(** A step that also leaves the backfill block number and the replay
    channel alone. *)
Definition quietStep (b b' : broadcaster) : Prop :=
  loopFixed b' = loopFixed b
  ∧ backfillBlockNumber b' = backfillBlockNumber b
  ∧ replayChannel b' = replayChannel b.

Lemma onNewLog_quiet (log : Log) (b : broadcaster) :
  ∃ b' calls, onNewLog log b = Done tt b' calls ∧ quietStep b b'.
Proof.
  destruct (onNewLog_run log b) as [calls Hrun].
  eexists _, _. split; [exact Hrun|]. by repeat split.
Qed.

Lemma onNewHeads_quiet (b : broadcaster) :
  ∃ b' calls, onNewHeads b = Done tt b' calls ∧ quietStep b b'.
Proof.
  rewrite onNewHeads_run.
  destruct (last (utils.queue (newHeads b))) as [[head|reg|n]|];
    try (eexists _, _; split; [reflexivity|]; by repeat split).
  destruct (dispatch_shape head (cleared b)) as (b' & calls & -> & -> & _).
  eexists _, _. split; [reflexivity|]. by repeat split.
Qed.

Lemma onAddSubscribers_quiet (b : broadcaster) :
  ∃ needs b' calls, onAddSubscribers b = Done needs b' calls ∧ quietStep b b'.
Proof.
  rewrite onAddSubscribers_run. destruct (drain _ _ _ _ _) as [[r n] c].
  eexists _, _, _. split; [reflexivity|]. by repeat split.
Qed.

Lemma onRmSubscribers_quiet (b : broadcaster) :
  ∃ needs b' calls, onRmSubscribers b = Done needs b' calls ∧ quietStep b b'.
Proof.
  rewrite onRmSubscribers_run. destruct (drain _ _ _ _ _) as [[r n] c].
  eexists _, _, _. split; [reflexivity|]. by repeat split.
Qed.

Lemma quietStep_trans (b1 b2 b3 : broadcaster) :
  quietStep b1 b2 → quietStep b2 b3 → quietStep b1 b3.
Proof. unfold quietStep. intros (-> & -> & ->) (-> & -> & ->). done. Qed.

Lemma eventLoop_loop_inv
  (schedule : list selectCase) (chRawLogs : chan Log) (needs : bool)
  (b b' : broadcaster) r err ch' calls :
  eventLoop_loop schedule chRawLogs needs b = Done (r, err, ch') b' calls →
  loopFixed b' = loopFixed b
  ∧ (backfillBlockNumber b' = backfillBlockNumber b
     ∨ (CaseReplay ∈ schedule ∧ r = true ∧ err = None
        ∧ null.Valid (backfillBlockNumber b') = true)).
Proof.
  revert chRawLogs needs b calls.
  induction schedule as [|c schedule IH]; intros ch needs b calls; simpl; [done|].
  assert (Hstep : ∀ b1 ch1 needs1 calls1,
            quietStep b b1 →
            eventLoop_loop schedule ch1 needs1 b1 = Done (r, err, ch') b' calls1 →
            loopFixed b' = loopFixed b
            ∧ (backfillBlockNumber b' = backfillBlockNumber b
               ∨ (CaseReplay ∈ c :: schedule ∧ r = true ∧ err = None
                  ∧ null.Valid (backfillBlockNumber b') = true))).
  { intros b1 ch1 needs1 calls1 (Hf & Hb & _) Hrest.
    destruct (IH _ _ _ _ Hrest) as (Hf' & Hb').
    split; [congruence|].
    destruct Hb' as [Hb'|(Hin & ? & ? & ?)]; [left; congruence|right].
    split; [by apply list_elem_of_further|done]. }
  destruct c.
  - destruct ch as [s|]; [|done]. intros Hrun.
    apply (eventLoop_loop_raw_log schedule s needs b) in Hrun. revert Hrun.
    rewrite bind_logf.
    destruct (onNewLog_quiet (default zeroLog (head (pending s))) b) as (b1 & c1 & Hlog & Hq).
    rewrite (bind_Done _ _ _ _ _ _ Hlog).
    destruct (eventLoop_loop schedule _ _ _) as [[[r0 e0] ch0] b0 c0| |] eqn:Hrest; [|done..].
    intros [= <- <- <- <- <-]. by apply (Hstep _ _ _ _ Hq Hrest).
  - destruct (onNewHeads_quiet b) as (b1 & c1 & Hheads & Hq).
    rewrite (bind_Done _ _ _ _ _ _ Hheads).
    destruct (eventLoop_loop schedule _ _ _) as [[[r0 e0] ch0] b0 c0| |] eqn:Hrest; [|done..].
    intros [= <- <- <- <- <-]. by apply (Hstep _ _ _ _ Hq Hrest).
  - intros [= <- <- <- <- <-]. split; [done|]. by left.
  - destruct (onAddSubscribers_quiet b) as (n1 & b1 & c1 & Hadd & Hq).
    rewrite (bind_Done _ _ _ _ _ _ Hadd).
    destruct (eventLoop_loop schedule _ _ _) as [[[r0 e0] ch0] b0 c0| |] eqn:Hrest; [|done..].
    intros [= <- <- <- <- <-]. by apply (Hstep _ _ _ _ Hq Hrest).
  - destruct (onRmSubscribers_quiet b) as (n1 & b1 & c1 & Hrm & Hq).
    rewrite (bind_Done _ _ _ _ _ _ Hrm).
    destruct (eventLoop_loop schedule _ _ _) as [[[r0 e0] ch0] b0 c0| |] eqn:Hrest; [|done..].
    intros [= <- <- <- <- <-]. by apply (Hstep _ _ _ _ Hq Hrest).
  - run. destruct (recv (replayChannel b)) as [[blockNumber chan']|]; [|done].
    run. intros [= <- <- <- <- <-]. split; [done|].
    right. split; [apply list_elem_of_here|done].
  - destruct needs.
    + run. intros [= <- <- <- <- <-]. split; [done|]. by left.
    + intros Hrest. apply (Hstep b ch false calls); [by repeat split|exact Hrest].
  - intros [= <- <- <- <- <-]. split; [done|]. by left.
Qed.







(** X6. The event loop never writes the connected flag, the count of
    tracked addresses, the saved head, the configuration or the ORM; and it
    writes the backfill block number only when it returns on a replay
    request, valid then. *)
Theorem eventLoop_frame
  (schedule : list selectCase) (chRawLogs : chan Log) (b b' : broadcaster)
  (r : bool) (err : option error) (ch' : chan Log) (calls : list call) :
  eventLoop schedule chRawLogs b = Done (r, err, ch') b' calls →
  connected b' = connected b
  ∧ trackedAddressesCount b' = trackedAddressesCount b
  ∧ highestSavedHead b' = highestSavedHead b
  ∧ config b' = config b
  ∧ orm b' = orm b
  ∧ (backfillBlockNumber b' = backfillBlockNumber b
     ∨ (CaseReplay ∈ schedule ∧ r = true ∧ err = None
        ∧ null.Valid (backfillBlockNumber b') = true)).
Proof.
  unfold eventLoop. rewrite bind_logf.
  destruct (eventLoop_loop schedule chRawLogs false b)
    as [[[r0 e0] ch0] b0 c0| |] eqn:Hloop; [|done..].
  intros [= <- <- <- <- <-].
  destruct (eventLoop_loop_inv _ _ _ _ _ _ _ _ _ Hloop) as (Hf & Hb).
  unfold loopFixed in Hf. injection Hf as -> -> -> -> ->. by repeat split.
Qed.

Lemma eventLoop_frame_witness :
  ∃ b' calls,
    eventLoop [CaseNewHeads; CaseStop] None (waiting jobA) = Done (false, None, None) b' calls
    ∧ connected b' = connected (waiting jobA).
Proof.
  assert (Hrun : ∃ b' calls,
            eventLoop [CaseNewHeads; CaseStop] None (waiting jobA) =
              Done (false, None, None) b' calls)
    by (eexists _, _; vm_compute; reflexivity).
  destruct Hrun as (b' & calls & Hrun). exists b', calls. split; [exact Hrun|].
  apply (eventLoop_frame _ _ _ _ _ _ _ _ Hrun).
Defined.

(** ** The debounce *)







(** ** One round of the resubscribe loop *)

Definition resubscribingLine : call :=
  Logged Debug "LogBroadcaster: Resubscribing and backfilling logs...".

Definition overrideLine : call :=
  Logged Debug "LogBroadcaster: Using an override as a start of the backfill".

(** The calls of [seedBackfill]. *)
Definition seedCalls (b : broadcaster) : list call :=
  match seedBackfill b with
  | Done _ _ calls => calls
  | _ => []
  end.

Lemma seedBackfill_seeded (b : broadcaster) :
  seedBackfill b = Done tt (seeded b) (seedCalls b).
Proof.
  unfold seeded, seedCalls. rewrite seedBackfill_run.
  destruct (highestSavedHead b); [destruct (BlockBackfillSkip (config b))|]; done.
Qed.

(** The calls of a round up to the request for the backfill. *)
Definition roundCalls (b : broadcaster) : list call :=
  let '(addresses, topics) := Registrations.addressesAndTopics (registrations b) in
  [resubscribingLine; CreateSubscriptionCalled addresses topics]
  ++ seedCalls b
  ++ (if null.Valid (backfillBlockNumber (seeded b)) then [overrideLine] else [])
  ++ [BackfillLogsCalled (backfillBlockNumber (seeded b)) addresses topics].

(** The broadcaster when the round enters the event loop. *)
Definition subscribed (b : broadcaster) : broadcaster :=
  set_trackedAddressesCount
    (Z.of_nat (length (Registrations.addressesAndTopics (registrations b)).1) `mod` 2 ^ 32)
    (set_connected true
       (set_backfillBlockNumber (null.invalidate (backfillBlockNumber (seeded b)))
          (seeded b))).

Lemma resubscribe_run (c : cycle) (chRawLogs : chan Log) (b : broadcaster) :
  resubscribe c chRawLogs b =
    if createAbort c then
      Done None b
        [resubscribingLine;
         CreateSubscriptionCalled
           (Registrations.addressesAndTopics (registrations b)).1
           (Registrations.addressesAndTopics (registrations b)).2]
    else if backfillAbort c then Done None (seeded b) (roundCalls b)
    else
      Done
        (Some (appendLogChannel (stopLive c)
                 (appendLogChannel (stopBackfilled c) chRawLogs (backfilledLogs c))
                 (liveLogs c)))
        (subscribed b) (roundCalls b ++ [UnsubscribeCalled]).
Proof.
  unfold resubscribe, roundCalls, subscribed. run.
  destruct (Registrations.addressesAndTopics (registrations b)) as [addresses topics].
  run. simpl. destruct (createAbort c); [reflexivity|].
  rewrite (bind_Done _ _ _ _ _ _ (seedBackfill_seeded b)). run.
  destruct (null.Valid (backfillBlockNumber (seeded b))), (backfillAbort c);
    run; simpl; rewrite <- ?app_assoc; reflexivity.
Qed.

Lemma seeded_frame (b : broadcaster) :
  seeded b =
    set_highestSavedHead None
      (set_backfillBlockNumber (backfillBlockNumber (seeded b)) b).
Proof.
  unfold seeded. rewrite seedBackfill_run.
  destruct (highestSavedHead b) eqn:Hh;
    [destruct (BlockBackfillSkip (config b))|]; simpl; try done.
  destruct b. simpl in *. by subst.
Qed.

(** A round that aborts ends the goroutine, through the deferred
    [subscription.Unsubscribe()]. *)
Lemma startResubscribeLoop_on_abort
  (c : cycle) (cycles : list cycle) (ch0 : chan Log)
  (b0 bA : broadcaster) (callsA : list call) :
  resubscribe c ch0 b0 = Done None bA callsA →
  startResubscribeLoop_loop (c :: cycles) ch0 b0 =
    Done tt bA (callsA ++ [UnsubscribeCalled]).
Proof.
  intros Hre. simpl. by rewrite (bind_Done _ _ _ _ _ _ Hre).
Qed.

(** X8. A round that reaches the event loop has asked for one
    subscription and one backfill, in that order, and enters the loop with
    the connected flag set, the count of tracked addresses that of the
    addresses it subscribed to (as a [uint32]), no saved head and no valid
    backfill override left; registrations, pool, mailboxes and replay
    channel are as they were.  A round that aborts ends the goroutine with
    the connected flag as it was: [startResubscribeLoop] returns, and the
    one call of [Unsubscribe] it has made in that round is the deferred
    one, made on return. *)
Theorem resubscribe_round (c : cycle) (chRawLogs : chan Log) (b : broadcaster) :
  ∃ r b' calls,
    resubscribe c chRawLogs b = Done r b' calls
    ∧ match r with
      | Some _ =>
          createAbort c = false ∧ backfillAbort c = false
          ∧ b' = set_trackedAddressesCount
                   (Z.of_nat (length (Registrations.addressesAndTopics (registrations b)).1)
                    `mod` 2 ^ 32)
                   (set_connected true
                      (set_highestSavedHead None
                         (set_backfillBlockNumber (backfillBlockNumber b') b)))
          ∧ null.Valid (backfillBlockNumber b') = false
          ∧ ∃ seeding from,
              calls =
                [resubscribingLine;
                 CreateSubscriptionCalled
                   (Registrations.addressesAndTopics (registrations b)).1
                   (Registrations.addressesAndTopics (registrations b)).2]
                ++ seeding
                ++ [BackfillLogsCalled from
                      (Registrations.addressesAndTopics (registrations b)).1
                      (Registrations.addressesAndTopics (registrations b)).2;
                    UnsubscribeCalled]
              ∧ Forall (λ x, ∃ lvl msg, x = Logged lvl msg) seeding
      | None =>
          (createAbort c = true ∨ backfillAbort c = true)
          ∧ connected b' = connected b
          ∧ (UnsubscribeCalled ∉ calls)
          ∧ (∀ cycles,
               startResubscribeLoop_loop (c :: cycles) chRawLogs b =
                 Done tt b' (calls ++ [UnsubscribeCalled]))
      end.
Proof.
  pose proof (resubscribe_run c chRawLogs b) as Hrun.
  destruct (createAbort c) eqn:Hcreate; [|destruct (backfillAbort c) eqn:Hbackfill].
  - eexists _, _, _. split; [exact Hrun|]. split; [by left|]. split; [done|]. split.
    + rewrite !elem_of_cons, elem_of_nil. intros [?|[?|[]]]; discriminate.
    + intros cycles. apply (startResubscribeLoop_on_abort _ _ _ _ _ _ Hrun).
  - eexists _, _, _. split; [exact Hrun|]. split; [by right|].
    split; [by rewrite seeded_frame|]. split.
    + unfold roundCalls, seedCalls. rewrite seedBackfill_run.
      destruct (Registrations.addressesAndTopics (registrations b)) as [addresses topics].
      destruct (highestSavedHead b); [destruct (BlockBackfillSkip (config b))|];
        destruct (null.Valid _); simpl;
        rewrite !elem_of_cons, elem_of_nil; intuition discriminate.
    + intros cycles. apply (startResubscribeLoop_on_abort _ _ _ _ _ _ Hrun).
  - eexists _, _, _. split; [exact Hrun|]. split; [done|]. split; [done|].
    split; [|split; [done|]].
    + unfold subscribed. rewrite (seeded_frame b) at 2. simpl.
      rewrite (seeded_frame b) at 1. reflexivity.
    + exists (seedCalls b
              ++ if null.Valid (backfillBlockNumber (seeded b)) then [overrideLine] else []),
             (backfillBlockNumber (seeded b)).
      split.
      * unfold roundCalls.
        destruct (Registrations.addressesAndTopics (registrations b)) as [addresses topics].
        simpl. rewrite <- !app_assoc. reflexivity.
      * apply Forall_app. split.
        -- unfold seedCalls. rewrite seedBackfill_run.
           destruct (highestSavedHead b); [destruct (BlockBackfillSkip (config b))|];
             repeat constructor. by eexists _, _.
        -- destruct (null.Valid _); repeat constructor. by eexists _, _.
Qed.

(** ** The connected flag over the rounds *)

Definition reconnectLine : call :=
  Logged Warn "LogBroadcaster: Error in the event loop - will reconnect".

Lemma startResubscribeLoop_on_error
  (c : cycle) (cycles : list cycle) (ch0 ch1 ch2 : chan Log)
  (b0 bA bB : broadcaster) (callsA callsB : list call) (r : bool) (e : error) :
  resubscribe c ch0 b0 = Done (Some ch1) bA callsA →
  eventLoop (schedule c) ch1 bA = Done (r, Some e, ch2) bB callsB →
  startResubscribeLoop_loop (c :: cycles) ch0 b0 =
    after (callsA ++ callsB ++ [reconnectLine])
      (startResubscribeLoop_loop cycles ch2 (set_connected false bB)).
Proof.
  intros Hre Hloop. simpl.
  rewrite (bind_Done _ _ _ _ _ _ Hre), (bind_Done _ _ _ _ _ _ Hloop). simpl. run.
  destruct (startResubscribeLoop_loop cycles ch2 _); simpl;
    by rewrite <- ?app_assoc.
Qed.

Lemma startResubscribeLoop_on_stop
  (c : cycle) (cycles : list cycle) (ch0 ch1 ch2 : chan Log)
  (b0 bA bB : broadcaster) (callsA callsB : list call) :
  resubscribe c ch0 b0 = Done (Some ch1) bA callsA →
  eventLoop (schedule c) ch1 bA = Done (false, None, ch2) bB callsB →
  startResubscribeLoop_loop (c :: cycles) ch0 b0 =
    Done tt (set_connected false bB) (callsA ++ callsB ++ [UnsubscribeCalled]).
Proof.
  intros Hre Hloop. simpl.
  rewrite (bind_Done _ _ _ _ _ _ Hre), (bind_Done _ _ _ _ _ _ Hloop). simpl. run.
  by rewrite <- ?app_assoc.
Qed.

Lemma resubscribe_connects (c : cycle) (ch0 ch1 : chan Log) (b0 bA : broadcaster) callsA :
  resubscribe c ch0 b0 = Done (Some ch1) bA callsA →
  connected bA = true ∧ null.Valid (backfillBlockNumber bA) = false
  ∧ highestSavedHead bA = None.
Proof.
  rewrite resubscribe_run.
  destruct (createAbort c); [done|]. destruct (backfillAbort c); [done|].
  intros [= <- <- <-]. unfold subscribed. simpl.
  split; [done|]. split; [done|]. apply seeded_no_saved_head.
Qed.

(** X9. How a round ends decides the connected flag.  On the stop signal
    the goroutine ends with the flag cleared and the subscription
    unsubscribed.  On an error of the subscription the flag is cleared and
    the loop goes round.  On a return of [(true, nil)], for a replay, a
    debounced change of subscribers or a nil received from [chErr], the
    loop goes round with the flag still set: [IsConnected] does not report
    the resubscribe. *)
Theorem connected_over_rounds
  (c : cycle) (cycles : list cycle) (ch0 ch1 ch2 : chan Log)
  (b0 bA bB : broadcaster) (callsA callsB : list call)
  (r : bool) (err : option error) :
  resubscribe c ch0 b0 = Done (Some ch1) bA callsA →
  eventLoop (schedule c) ch1 bA = Done (r, err, ch2) bB callsB →
  connected bB = true
  ∧ match err, r with
    | Some _, _ =>
        startResubscribeLoop_loop (c :: cycles) ch0 b0 =
          after (callsA ++ callsB ++ [reconnectLine])
            (startResubscribeLoop_loop cycles ch2 (set_connected false bB))
    | None, false =>
        startResubscribeLoop_loop (c :: cycles) ch0 b0 =
          Done tt (set_connected false bB) (callsA ++ callsB ++ [UnsubscribeCalled])
    | None, true =>
        startResubscribeLoop_loop (c :: cycles) ch0 b0 =
          after (callsA ++ callsB) (startResubscribeLoop_loop cycles ch2 bB)
        ∧ IsConnected bB = Done true bB []
    end.
Proof.
  intros Hre Hloop.
  destruct (resubscribe_connects _ _ _ _ _ _ Hre) as (Hconn & _ & _).
  assert (HconnB : connected bB = true).
  { unfold eventLoop in Hloop. rewrite bind_logf in Hloop.
    destruct (eventLoop_loop (schedule c) ch1 false bA)
      as [[[r0 e0] ch'] b' c'| |] eqn:Hl; [|done..].
    injection Hloop as <- <- <- <- <-.
    destruct (eventLoop_loop_inv _ _ _ _ _ _ _ _ _ Hl) as (Hf & _).
    unfold loopFixed in Hf. injection Hf as _ _ -> _ _. done. }
  split; [done|].
  destruct err as [e|]; [|destruct r].
  - by apply (startResubscribeLoop_on_error c cycles ch0 ch1 ch2 b0 bA bB _ _ r e).
  - split; [by apply (startResubscribeLoop_goes_round c cycles ch0 ch1 ch2 b0 bA bB)|].
    unfold IsConnected. run. by rewrite HconnB.
  - by apply (startResubscribeLoop_on_stop c cycles ch0 ch1 ch2 b0 bA bB).
Qed.

(** A round on a fresh broadcaster whose event loop is stopped at once. *)
Definition stopped : cycle := mkCycle false (Some (mkStream [] true)) false (Some (mkStream [] true)) None None [CaseStop].

Lemma connected_over_rounds_witness :
  ∃ bB calls,
    startResubscribeLoop [stopped] fresh = Done tt (set_connected false bB) calls
    ∧ connected bB = true.
Proof.
  assert (Hre : ∃ ch1 bA callsA, resubscribe stopped None fresh = Done (Some ch1) bA callsA)
    by (eexists _, _, _; vm_compute; reflexivity).
  destruct Hre as (ch1 & bA & callsA & Hre).
  assert (Hloop : ∃ ch2 bB callsB,
            eventLoop (schedule stopped) ch1 bA = Done (false, None, ch2) bB callsB).
  { revert Hre. rewrite resubscribe_run. simpl. intros [= <- <- <-].
    eexists _, _, _. reflexivity. }
  destruct Hloop as (ch2 & bB & callsB & Hloop).
  destruct (connected_over_rounds stopped [] None ch1 ch2 fresh bA bB callsA callsB
              false None Hre Hloop) as [Hconn Hend].
  exists bB, (callsA ++ callsB ++ [UnsubscribeCalled]). split; [exact Hend|exact Hconn].
Defined.

(** ** The backfill override is used once *)

(** X10. A valid backfill block number, from the saved head or from a
    replay request, is used by one round: the round that follows a round
    which reached the event loop asks for a backfill with no valid
    override, unless the event loop returned on a new replay request. *)
Theorem override_used_once
  (c1 c2 : cycle) (ch0 ch1 ch2 : chan Log) (b0 bA bB : broadcaster)
  (callsA callsB : list call) (r : bool) (err : option error) :
  resubscribe c1 ch0 b0 = Done (Some ch1) bA callsA →
  eventLoop (schedule c1) ch1 bA = Done (r, err, ch2) bB callsB →
  CaseReplay ∉ schedule c1 →
  createAbort c2 = false →
  ∀ flag,
    ∃ r2 b2 calls2,
      resubscribe c2 ch2 (set_connected flag bB) = Done r2 b2 calls2
      ∧ ∃ from pre post,
          calls2 =
            pre ++ BackfillLogsCalled from
                     (Registrations.addressesAndTopics (registrations bB)).1
                     (Registrations.addressesAndTopics (registrations bB)).2 :: post
          ∧ null.Valid from = false
          ∧ Forall (λ x, ∀ f a t, x ≠ BackfillLogsCalled f a t) (pre ++ post).
Proof.
  intros Hre Hloop Hnot Hcreate flag.
  destruct (resubscribe_connects _ _ _ _ _ _ Hre) as (_ & Hinvalid & Hnone).
  assert (Hkeep : backfillBlockNumber bB = backfillBlockNumber bA
                  ∧ highestSavedHead bB = None).
  { unfold eventLoop in Hloop. rewrite bind_logf in Hloop.
    destruct (eventLoop_loop (schedule c1) ch1 false bA)
      as [[[r0 e0] ch'] b' c'| |] eqn:Hl; [|done..].
    injection Hloop as <- <- <- <- <-.
    destruct (eventLoop_loop_inv _ _ _ _ _ _ _ _ _ Hl) as (Hf & Hb).
    unfold loopFixed in Hf. injection Hf as _ _ _ _ ->.
    split; [|done]. by destruct Hb as [Hb|[Hin _]]. }
  destruct Hkeep as [Hbbn HnoneB].
  assert (Hseeded : seeded (set_connected flag bB) = set_connected flag bB)
    by (unfold seeded; by rewrite seedBackfill_run; simpl; rewrite HnoneB).
  rewrite resubscribe_run, Hcreate. unfold roundCalls, seedCalls.
  rewrite Hseeded, seedBackfill_run. simpl. rewrite HnoneB, Hbbn, Hinvalid. simpl.
  destruct (backfillAbort c2); eexists _, _, _; (split; [reflexivity|]).
  - eexists (backfillBlockNumber bA), [_; _], [].
    split; [reflexivity|]. split; [done|]. by repeat constructor.
  - eexists (backfillBlockNumber bA), [_; _], [_].
    split; [reflexivity|]. split; [done|]. by repeat constructor.
Qed.

(** The saved head 15 seeds the first round; the second has no override. *)
Definition quietRound : cycle :=
  mkCycle false (Some (mkStream [] true)) false (Some (mkStream [] true)) None None [CaseErr (Some "EOF")].

Lemma override_used_once_witness :
  ∃ ch1 bB r2 b2 calls2 from pre post,
    resubscribe quietRound ch1 (set_connected false bB) = Done r2 b2 calls2
    ∧ calls2 =
        pre ++ BackfillLogsCalled from
                 (Registrations.addressesAndTopics (registrations bB)).1
                 (Registrations.addressesAndTopics (registrations bB)).2 :: post
    ∧ null.Valid from = false.
Proof.
  assert (Hre : ∃ ch1 bA callsA,
            resubscribe quietRound None restarted = Done (Some ch1) bA callsA)
    by (eexists _, _, _; vm_compute; reflexivity).
  destruct Hre as (ch1 & bA & callsA & Hre).
  assert (Hloop : ∃ bB callsB,
            eventLoop (schedule quietRound) ch1 bA = Done (true, Some "EOF", ch1) bB callsB)
    by (eexists _, _; reflexivity).
  destruct Hloop as (bB & callsB & Hloop).
  destruct (override_used_once quietRound quietRound None ch1 ch1 restarted bA bB
              callsA callsB true (Some "EOF") Hre Hloop) with (flag := false)
    as (r2 & b2 & calls2 & Hrun & from & pre & post & Hcalls & Hvalid & _).
  - intros Hin. unfold quietRound in Hin. simpl in Hin.
    apply list_elem_of_singleton in Hin. discriminate.
  - reflexivity.
  - exists ch1, bB, r2, b2, calls2, from, pre, post.
    split; [exact Hrun|]. split; [exact Hcalls|exact Hvalid].
Defined.

(** ** The raw logs of a round *)

(** X11. When no forwarding goroutine takes its stop branch, the channel
    the event loop of a round reads carries what the round before left
    unread, then the backfilled logs, then the logs of the new
    subscription, each in its order, and is closed after them, as long as
    each of these channels is nil or closed after its items.  A channel
    that stays open holds back all that comes after it, and the channel the
    event loop reads is then not closed.  It is nil only when all three
    are. *)
Theorem raw_logs_in_order (c : cycle) (chRawLogs : chan Log) (b : broadcaster) :
  createAbort c = false → backfillAbort c = false →
  stopBackfilled c = None → stopLive c = None →
  ∃ b' calls,
    resubscribe c chRawLogs b =
      Done
        (Some match chRawLogs, backfilledLogs c, liveLogs c with
              | None, None, None => None
              | _, _, _ =>
                  Some (mkStream
                          (yields chRawLogs
                           ++ if ends chRawLogs
                              then yields (backfilledLogs c)
                                   ++ if ends (backfilledLogs c)
                                      then yields (liveLogs c) else []
                              else [])
                          (ends chRawLogs && ends (backfilledLogs c)
                           && ends (liveLogs c)))
              end)
        b' calls.
Proof.
  intros Hcreate Hbackfill Hs1 Hs2.
  rewrite resubscribe_run, Hcreate, Hbackfill, Hs1, Hs2, !appendLogChannel_all.
  eexists _, _. f_equal. f_equal.
  destruct chRawLogs as [[a [|]]|], (backfilledLogs c) as [[bf [|]]|],
    (liveLogs c) as [[lv [|]]|];
    unfold received, drained; simpl; rewrite ?app_nil_r, <- ?app_assoc; reflexivity.
Qed.

Lemma raw_logs_in_order_witness :
  ∃ b' calls,
    resubscribe (mkCycle false (Some (mkStream [log12] true)) false (Some (mkStream [log11] true)) None None [])
      (Some (mkStream [log10] true)) fresh =
      Done (Some (Some (mkStream [log10; log11; log12] true))) b' calls.
Proof.
  apply (raw_logs_in_order (mkCycle false (Some (mkStream [log12] true)) false (Some (mkStream [log11] true)) None None [])
           (Some (mkStream [log10] true)) fresh); reflexivity.
Defined.

(** ** The mailbox of the heads *)

(** X12. [onNewHeads] leaves the mailbox of the heads empty and writes
    nothing but that mailbox, the pool and the last seen head number.  The
    number is stored exactly when the newest item was a head, also when
    the query of its pass fails; otherwise it is as it was, and so is the
    pool, and neither the ORM nor a listener is called. *)
Theorem onNewHeads_post (b : broadcaster) :
  ∃ b' calls,
    onNewHeads b = Done tt b' calls
    ∧ utils.queue (newHeads b') = []
    ∧ utils.capacity (newHeads b') = utils.capacity (newHeads b)
    ∧ b' = set_logPool (logPool b')
             (set_lastSeenHeadNumber (lastSeenHeadNumber b')
                (set_newHeads (newHeads b') b))
    ∧ match last (utils.queue (newHeads b)) with
      | Some (HeadItem head) => lastSeenHeadNumber b' = Number head
      | _ =>
          lastSeenHeadNumber b' = lastSeenHeadNumber b
          ∧ logPool b' = logPool b
          ∧ Forall (λ x, ∃ lvl msg, x = Logged lvl msg) calls
      end.
Proof.
  rewrite onNewHeads_run.
  destruct (last (utils.queue (newHeads b))) as [[head|reg|n]|] eqn:Hlast.
  - destruct (dispatch_shape head (cleared b)) as (b' & calls & -> & Hb' & _).
    eexists _, _. split; [reflexivity|]. rewrite Hb'. simpl.
    split; [done|]. split; [done|]. split; [reflexivity|done].
  - eexists _, _. split; [reflexivity|]. simpl. split; [done|]. split; [done|].
    split; [by destruct b|]. split; [done|]. split; [done|].
    repeat constructor. by eexists _, _.
  - eexists _, _. split; [reflexivity|]. simpl. split; [done|]. split; [done|].
    split; [by destruct b|]. split; [done|]. split; [done|].
    repeat constructor. by eexists _, _.
  - eexists _, _. split; [reflexivity|].
    assert (Hq : utils.queue (newHeads b) = []).
    { destruct (utils.queue (newHeads b)) as [|y q] using rev_ind; [done|].
      by rewrite last_snoc in Hlast. }
    split; [done|]. split; [done|]. split; [by destruct b|]. by repeat split.
Qed.

(** ** The subscriptions in arrival order *)

(** The registrations among the items of a mailbox. *)
Definition registrationsOf (items : list any) : list registration :=
  omap (λ x, match x with RegistrationItem reg => Some reg | _ => None end) items.

Section DrainingInOrder.

Variable step : Registrations.regs → registration → Registrations.regs * bool.
Variable line : call.
Hypothesis line_logged : ∃ lvl msg, line = Logged lvl msg.

(** The registrations after the steps for [regs], in their order. *)
Definition stepped (r : Registrations.regs) (regs : list registration)
  : Registrations.regs :=
  foldl (λ r reg, (step r reg).1) r regs.

(** Whether one of those steps asks for a resubscribe. *)
Fixpoint asked (r : Registrations.regs) (regs : list registration) : bool :=
  match regs with
  | [] => false
  | reg :: regs => (step r reg).2 || asked (step r reg).1 regs
  end.

Lemma drain_in_order (items : list any) (r : Registrations.regs) (needs : bool) :
  ∃ calls,
    drain step line items r needs =
      (stepped r (registrationsOf items),
       asked r (registrationsOf items) || needs, calls)
    ∧ length calls = length items
    ∧ Forall (λ x, ∃ lvl msg, x = Logged lvl msg) calls.
Proof.
  revert r needs. induction items as [|x items IH]; intros r needs; simpl.
  - by exists [].
  - destruct x as [h|reg|n]; simpl.
    + destruct (IH r needs) as (calls & -> & Hlen & Hall).
      eexists. split; [reflexivity|]. simpl. split; [by rewrite Hlen|].
      constructor; [by eexists _, _|done].
    + destruct (step r reg) as [r1 n1] eqn:Hstep. simpl.
      destruct (IH r1 (if n1 then true else needs)) as (calls & -> & Hlen & Hall).
      eexists. split; [|split].
      * f_equal. f_equal. destruct n1, (asked r1 _), needs; reflexivity.
      * simpl. by rewrite Hlen.
      * by constructor.
    + destruct (IH r needs) as (calls & -> & Hlen & Hall).
      eexists. split; [reflexivity|]. simpl. split; [by rewrite Hlen|].
      constructor; [by eexists _, _|done].
Qed.

End DrainingInOrder.

(** X13. [onAddSubscribers] and [onRmSubscribers] empty their mailbox and
    hand its registrations to [registrations.addSubscriber] and
    [registrations.removeSubscriber] in the order of arrival, each on the
    registrations the one before left; they return [true] exactly when one
    of these calls asked for a resubscribe, log one line for each item, and
    write nothing but their mailbox and the registrations. *)
Theorem subscribers_in_arrival_order (b : broadcaster) :
  (∃ calls,
     onAddSubscribers b =
       Done (asked Registrations.addSubscriber (registrations b)
               (registrationsOf (utils.queue (addSubscriber b))))
         (set_registrations
            (stepped Registrations.addSubscriber (registrations b)
               (registrationsOf (utils.queue (addSubscriber b))))
            (set_addSubscriber (emptied (addSubscriber b)) b))
         calls
     ∧ length calls = length (utils.queue (addSubscriber b))
     ∧ Forall (λ x, ∃ lvl msg, x = Logged lvl msg) calls)
  ∧ (∃ calls,
       onRmSubscribers b =
         Done (asked Registrations.removeSubscriber (registrations b)
                 (registrationsOf (utils.queue (rmSubscriber b))))
           (set_registrations
              (stepped Registrations.removeSubscriber (registrations b)
                 (registrationsOf (utils.queue (rmSubscriber b))))
              (set_rmSubscriber (emptied (rmSubscriber b)) b))
           calls
       ∧ length calls = length (utils.queue (rmSubscriber b))
       ∧ Forall (λ x, ∃ lvl msg, x = Logged lvl msg) calls).
Proof.
  split.
  - rewrite onAddSubscribers_run.
    destruct (drain_in_order Registrations.addSubscriber subscribingLine
                ltac:(by eexists _, _)
                (utils.queue (addSubscriber b)) (registrations b) false)
      as (calls & -> & Hlen & Hall).
    exists calls. by rewrite orb_false_r.
  - rewrite onRmSubscribers_run.
    destruct (drain_in_order Registrations.removeSubscriber unsubscribingLine
                ltac:(by eexists _, _)
                (utils.queue (rmSubscriber b)) (registrations b) false)
      as (calls & -> & Hlen & Hall).
    exists calls. by rewrite orb_false_r.
Qed.

(** ** From [Register] to the registrations *)

(** X14. A registration made with [Register] on an empty mailbox is the
    one the next [onAddSubscribers] adds, and it alone: the registrations
    are those [registrations.addSubscriber] gives for it and its answer is
    returned.  The closure [Register] returned hands the same registration
    to the next [onRmSubscribers] in the same way. *)
Theorem Register_then_drain
  (listener : Listener) (opts : ListenerOpts) (b : broadcaster) :
  size (LogsWithTopics opts) ≠ 0%nat →
  utils.queue (addSubscriber b) = [] →
  utils.queue (rmSubscriber b) = [] →
  let reg := mkRegistration listener opts in
  (∃ calls,
     (Register listener opts;; onAddSubscribers) b =
       Done (Registrations.addSubscriber (registrations b) reg).2
         (set_registrations (Registrations.addSubscriber (registrations b) reg).1 b)
         calls)
  ∧ (∃ calls,
       (unsubscribe reg;; onRmSubscribers) b =
         Done (Registrations.removeSubscriber (registrations b) reg).2
           (set_registrations (Registrations.removeSubscriber (registrations b) reg).1 b)
           calls).
Proof.
  intros Hne Hadd Hrm reg. split.
  - assert (Hreg : Register listener opts b =
              Done reg
                (set_addSubscriber
                   (utils.mkMailbox (utils.capacity (addSubscriber b)) [RegistrationItem reg]) b)
                []).
    { unfold Register. destruct (Nat.eqb_spec (size (LogsWithTopics opts)) 0); [done|].
      run. unfold utils.Deliver. rewrite Hadd. simpl.
      replace (_ && _) with false; [by run|].
      destruct (utils.capacity (addSubscriber b)) as [|[|cap]]; reflexivity. }
    rewrite (bind_Done _ _ _ _ _ _ Hreg), onAddSubscribers_run.
    cbn [addSubscriber set_addSubscriber registrations utils.queue drain].
    destruct (Registrations.addSubscriber (registrations b) reg) as [r1 n1].
    cbn [fst snd after app]. eexists. f_equal; [by destruct n1|].
    unfold emptied. simpl. destruct b. simpl in *.
    destruct addSubscriber0. simpl in *. by subst.
  - assert (Hun : unsubscribe reg b =
              Done tt
                (set_rmSubscriber
                   (utils.mkMailbox (utils.capacity (rmSubscriber b)) [RegistrationItem reg]) b)
                []).
    { unfold unsubscribe. run. unfold utils.Deliver. rewrite Hrm. simpl.
      replace (_ && _) with false; [by run|].
      destruct (utils.capacity (rmSubscriber b)) as [|[|n]]; reflexivity. }
    rewrite (bind_Done _ _ _ _ _ _ Hun), onRmSubscribers_run.
    cbn [rmSubscriber set_rmSubscriber registrations utils.queue drain].
    destruct (Registrations.removeSubscriber (registrations b) reg) as [r1 n1].
    cbn [fst snd after app]. eexists. f_equal; [by destruct n1|].
    unfold emptied. simpl. destruct b. simpl in *.
    destruct rmSubscriber0. simpl in *. by subst.
Qed.

Lemma Register_then_drain_witness :
  ∃ calls,
    (Register "job-a" (opts jobA);; onAddSubscribers) fresh =
      Done (Registrations.addSubscriber (registrations fresh) jobA).2
        (set_registrations (Registrations.addSubscriber (registrations fresh) jobA).1 fresh)
        calls.
Proof.
  apply (Register_then_drain "job-a" (opts jobA) fresh); by vm_compute.
Defined.

(** ** Before the dependents are ready *)

#[local] Instance awaitCase_eq_dec : EqDecision awaitCase.
Proof. solve_decision. Defined.

(** What [awaitInitialSubscribers] has no statement for. *)
Definition awaitFixed (b : broadcaster)
  : ORM * Config * bool * null.Int64 * LogPool.pool * utils.Mailbox any * Z
    * bchan Z * option Head * Z :=
  (orm b, config b, connected b, backfillBlockNumber b, logPool b, newHeads b,
   trackedAddressesCount b, replayChannel b, highestSavedHead b,
   lastSeenHeadNumber b).

(** A mailbox after the wait: emptied if it was notified, else as it was. *)
Definition waitedOn {A} (c : awaitCase) (pre : list awaitCase) (m : utils.Mailbox A)
  : utils.Mailbox A :=
  if bool_decide (c ∈ pre) then emptied m else m.

Lemma onAddSubscribers_logs (b : broadcaster) :
  ∃ needs r calls,
    onAddSubscribers b =
      Done needs (set_registrations r (set_addSubscriber (emptied (addSubscriber b)) b)) calls
    ∧ Forall (λ x, ∃ lvl msg, x = Logged lvl msg) calls.
Proof.
  rewrite onAddSubscribers_run.
  destruct (drain_in_order Registrations.addSubscriber subscribingLine
              ltac:(by eexists _, _)
              (utils.queue (addSubscriber b)) (registrations b) false)
    as (calls & -> & _ & Hall).
  by eexists _, _, _.
Qed.

Lemma onRmSubscribers_logs (b : broadcaster) :
  ∃ needs r calls,
    onRmSubscribers b =
      Done needs (set_registrations r (set_rmSubscriber (emptied (rmSubscriber b)) b)) calls
    ∧ Forall (λ x, ∃ lvl msg, x = Logged lvl msg) calls.
Proof.
  rewrite onRmSubscribers_run.
  destruct (drain_in_order Registrations.removeSubscriber unsubscribingLine
              ltac:(by eexists _, _)
              (utils.queue (rmSubscriber b)) (registrations b) false)
    as (calls & -> & _ & Hall).
  by eexists _, _, _.
Qed.

(** X15. [awaitInitialSubscribers] returns at the first of the two events
    that end it, whatever subscriptions and removals were notified before:
    it starts the resubscribe loop (result [true]) when the dependents are
    ready and does not when the broadcaster is stopped.  Until then it has
    only logged: no subscription is made, no log is asked of the node and
    the persistence layer is not queried.  With no delivery in between, a
    mailbox that was notified is empty and the other is as it was; apart
    from the two mailboxes and the registrations nothing is written. *)
Theorem awaitInitialSubscribers_returns
  (pre rest : list awaitCase) (c : awaitCase) (b : broadcaster) :
  Forall (λ c, c = AwaitAddSubscriber ∨ c = AwaitRmSubscriber) pre →
  c = AwaitDependents ∨ c = AwaitStop →
  ∃ b' calls,
    awaitInitialSubscribers (pre ++ c :: rest) b =
      Done (bool_decide (c = AwaitDependents)) b' calls
    ∧ awaitFixed b' = awaitFixed b
    ∧ addSubscriber b' = waitedOn AwaitAddSubscriber pre (addSubscriber b)
    ∧ rmSubscriber b' = waitedOn AwaitRmSubscriber pre (rmSubscriber b)
    ∧ Forall (λ x, ∃ lvl msg, x = Logged lvl msg) calls.
Proof.
  intros Hpre Hc. revert b.
  induction Hpre as [|c0 pre Hc0 Hpre IH]; intros b.
  - exists b, []. simpl. split; [by destruct Hc as [-> | ->]|]. done.
  - simpl. destruct Hc0 as [-> | ->].
    + destruct (onAddSubscribers_logs b) as (needs & r & calls1 & Hrun & Hall1).
      rewrite (bind_Done _ _ _ _ _ _ Hrun).
      destruct (IH (set_registrations r (set_addSubscriber (emptied (addSubscriber b)) b)))
        as (b' & calls & -> & Hfix & Hadd & Hrm & Hall).
      exists b', (calls1 ++ calls).
      split; [done|]. split; [by rewrite Hfix|]. split; [|split].
      * rewrite Hadd. unfold waitedOn.
        rewrite (bool_decide_eq_true_2 (_ ∈ _ :: _)) by apply list_elem_of_here.
        by destruct (bool_decide (AwaitAddSubscriber ∈ pre)).
      * rewrite Hrm. unfold waitedOn. simpl.
        destruct (bool_decide (AwaitRmSubscriber ∈ pre)) eqn:Hin.
        -- apply bool_decide_eq_true_1 in Hin.
           by rewrite bool_decide_eq_true_2 by by apply list_elem_of_further.
        -- apply bool_decide_eq_false_1 in Hin.
           rewrite bool_decide_eq_false_2; [done|].
           intros [Heq|Hin']%elem_of_cons; [discriminate|done].
      * by apply Forall_app.
    + destruct (onRmSubscribers_logs b) as (needs & r & calls1 & Hrun & Hall1).
      rewrite (bind_Done _ _ _ _ _ _ Hrun).
      destruct (IH (set_registrations r (set_rmSubscriber (emptied (rmSubscriber b)) b)))
        as (b' & calls & -> & Hfix & Hadd & Hrm & Hall).
      exists b', (calls1 ++ calls).
      split; [done|]. split; [by rewrite Hfix|]. split; [|split].
      * rewrite Hadd. unfold waitedOn. simpl.
        destruct (bool_decide (AwaitAddSubscriber ∈ pre)) eqn:Hin.
        -- apply bool_decide_eq_true_1 in Hin.
           by rewrite bool_decide_eq_true_2 by by apply list_elem_of_further.
        -- apply bool_decide_eq_false_1 in Hin.
           rewrite bool_decide_eq_false_2; [done|].
           intros [Heq|Hin']%elem_of_cons; [discriminate|done].
      * rewrite Hrm. unfold waitedOn.
        rewrite (bool_decide_eq_true_2 (_ ∈ _ :: _)) by apply list_elem_of_here.
        by destruct (bool_decide (AwaitRmSubscriber ∈ pre)).
      * by apply Forall_app.
Qed.

Lemma awaitInitialSubscribers_returns_witness :
  ∃ b' calls,
    awaitInitialSubscribers
      [AwaitAddSubscriber; AwaitRmSubscriber; AwaitDependents; AwaitStop]
      (waiting jobA) = Done true b' calls
    ∧ utils.queue (addSubscriber b') = []
    ∧ logPool b' = logPool (waiting jobA).
Proof.
  destruct (awaitInitialSubscribers_returns
              [AwaitAddSubscriber; AwaitRmSubscriber] [AwaitStop] AwaitDependents
              (waiting jobA))
    as (b' & calls & Hrun & Hfix & Hadd & _).
  - constructor; [by left|]. constructor; [by right|]. constructor.
  - by left.
  - exists b', calls. split; [exact Hrun|]. split.
    + by rewrite Hadd.
    + by injection Hfix.
Defined.
